(** * zda: the Zigbee device-abstraction gateway

    A shallow embedding of the gateway ([gateway.go], package [zda]) and of
    its product information capability, together with the properties of
    the gateway's lifecycle and capability machinery.

    Conventions of the embedding:
    - Go integers are [Z]; the width of a type is written out where an
      operation depends on it (the bitwise complement of the present mask).
    - Go maps are [gmap]s; a missing key reads as the zero value.
    - A Go panic is the [Panicked] outcome of [outcome].
    - Collaborators outside the package (the zigbee provider, the ZCL
      communicator) are oracles: state machines or scripted results over
      which every theorem quantifies. *)

From Stdlib Require Import ZArith String List Lia.
From stdpp Require Import base option list gmap strings.

Local Open Scope Z_scope.

(** ** Values shared with the imported packages *)

(** Go's [error]: [None] is [nil]. *)
Definition error : Type := string.

(** Outcome of a Go call that may panic. *)
Inductive outcome (A : Type) : Type :=
| Returned (a : A)
| Panicked.
Arguments Returned {A} a.
Arguments Panicked {A}.

Global Instance outcome_bind : MBind outcome := fun A B k m =>
  match m with
  | Returned a => k a
  | Panicked => Panicked
  end.

Module zigbee.
(** [zigbee.IEEEAddress] is a [uint64], [zigbee.Endpoint] a [uint8],
    [zigbee.ClusterID] a [uint16]. *)
Definition IEEEAddress : Type := Z.
Definition Endpoint : Type := Z.
Definition ClusterID : Type := Z.

Record EndpointDescription := {
  ProfileID : Z;
  DeviceID : Z;
  InClusterList : list ClusterID;
  OutClusterList : list ClusterID
}.

(** The zero value read from a map at a missing endpoint. *)
Definition zeroEndpointDescription : EndpointDescription :=
  {| ProfileID := 0; DeviceID := 0; InClusterList := []; OutClusterList := [] |}.

(** The events [Provider.ReadEvent] yields; [NoEvent] is the [nil] event
    that accompanies [ContextExpired]. *)
Inductive Event :=
| NodeJoinEvent (ieee : IEEEAddress)
| NodeLeaveEvent (ieee : IEEEAddress)
| NodeIncomingMessageEvent (ieee : IEEEAddress) (payload : list Z)
| NoEvent.

Definition ContextExpired : error := "context expired"%string.
End zigbee.

Module da.
(** [da.Capability] is an integer flag. *)
Definition Capability : Type := Z.

(** [da.Identifier] is an interface.  The package stores three kinds of
    value in it: nothing ([nil], the zero [Device]), the adapter's
    [zigbee.IEEEAddress] (the Self device) and an address with a
    sub-device index (devices of a node). *)
Inductive Identifier :=
| NoIdentifier
| IEEEAddress (a : zigbee.IEEEAddress)
| IEEEAddressWithSubIdentifier (a : zigbee.IEEEAddress) (sub : Z).

(** The gateway a device refers back to; the package has one. *)
Inductive GatewayRef := ZigbeeGatewayRef.

Record Device := {
  Gateway : option GatewayRef;
  Identifier_ : Identifier;
  Capabilities : list Capability
}.

Definition zeroDevice : Device :=
  {| Gateway := None; Identifier_ := NoIdentifier; Capabilities := [] |}.
End da.

Global Instance Identifier_eq_dec : EqDecision da.Identifier.
Proof. solve_decision. Defined.

Definition Identifier_encode (i : da.Identifier) : unit + (Z + Z * Z) :=
  match i with
  | da.NoIdentifier => inl tt
  | da.IEEEAddress a => inr (inl a)
  | da.IEEEAddressWithSubIdentifier a s => inr (inr (a, s))
  end.

Definition Identifier_decode (x : unit + (Z + Z * Z)) : da.Identifier :=
  match x with
  | inl _ => da.NoIdentifier
  | inr (inl a) => da.IEEEAddress a
  | inr (inr (a, s)) => da.IEEEAddressWithSubIdentifier a s
  end.

Global Instance Identifier_countable : Countable da.Identifier.
Proof.
  apply (inj_countable' Identifier_encode Identifier_decode).
  intros []; reflexivity.
Defined.

Module ProductInformation.
(** [capabilities.ProductInformation]. *)
Record t := {
  Manufacturer : string;
  Name : string;
  Present : Z
}.

Definition zero : t := {| Manufacturer := ""; Name := ""; Present := 0 |}.
End ProductInformation.

Module zcl.
Definition AttributeID : Type := Z.

(** The dynamic type of an [interface{}] attribute value. *)
Inductive Value :=
| VString (s : string)
| VUint (n : Z)
| VBool (b : bool)
| VNil.

Record AttributeDataTypeValue := {
  DataType : Z;
  Value_ : Value
}.

(** [global.ReadAttributeResponseRecord]; [DataTypeValue] is a pointer. *)
Record ReadAttributeResponseRecord := {
  Identifier : AttributeID;
  Status : Z;
  DataTypeValue : option AttributeDataTypeValue
}.

Definition BasicId : zigbee.ClusterID := 0.
End zcl.

(** Constants declared outside the two source files: the capability flags
    and present bits of package [capabilities], and the retry count of
    package [zda].  [present_bits] is the width of the unsigned type
    [capabilities.ProductInformationPresent]. *)
Class Constants := {
  DeviceDiscoveryFlag : da.Capability;
  EnumerateDeviceFlag : da.Capability;
  LocalDebugFlag : da.Capability;
  HasProductInformationFlag : da.Capability;
  OnOffFlag : da.Capability;
  present_bits : Z;
  Manufacturer : Z;
  Name : Z;
  DefaultNetworkRetries : nat
}.

(** The present masks fit the width of their type. *)
Record ConstantsFit `{Constants} : Prop := {
  present_bits_nonneg : 0 <= present_bits;
  Manufacturer_fits : 0 <= Manufacturer < 2 ^ present_bits;
  Name_fits : 0 <= Name < 2 ^ present_bits
}.

Definition DefaultGatewayHomeAutomationEndpoint : zigbee.Endpoint := 1.

(** ** The node and device store's objects *)

(** [internalDevice] and [internalNode] are declared outside the two source
    files; the fields are the ones the source reads and writes, with the
    counters the spec names ([next_transaction_sequence], the sub-device
    index of an identifier).  The mutexes are not modelled: the embedding is
    sequential. *)
Record internalDevice := {
  device : da.Device;
  endpoints : list zigbee.Endpoint;
  productInformation : ProductInformation.t
}.

Record internalNode := {
  ieeeAddress : zigbee.IEEEAddress;
  devices : list internalDevice;
  endpointDescriptions : gmap Z zigbee.EndpointDescription;
  supportsAPSAck : bool;
  transactionSequence : Z;
  deviceSubIdentifier : Z
}.

Definition zeroInternalDevice : internalDevice :=
  {| device := da.zeroDevice; endpoints := [];
     productInformation := ProductInformation.zero |}.

Definition withDevices (n : internalNode) (ds : list internalDevice) : internalNode :=
  {| ieeeAddress := ieeeAddress n; devices := ds;
     endpointDescriptions := endpointDescriptions n;
     supportsAPSAck := supportsAPSAck n;
     transactionSequence := transactionSequence n;
     deviceSubIdentifier := deviceSubIdentifier n |}.

(** Modelled from the spec: [getDevices] of the absent node store, the
    node's device sequence. *)
Definition getDevices (n : internalNode) : list internalDevice := devices n.

(** Modelled from the spec: [nextTransactionSequence] of the absent node
    store, a monotonically increasing u8 counter, wrapping. *)
Definition nextTransactionSequence (n : internalNode) : Z * internalNode :=
  (transactionSequence n,
   {| ieeeAddress := ieeeAddress n; devices := devices n;
      endpointDescriptions := endpointDescriptions n;
      supportsAPSAck := supportsAPSAck n;
      transactionSequence := (transactionSequence n + 1) mod 256;
      deviceSubIdentifier := deviceSubIdentifier n |}).

(** Modelled from the spec: [nextDeviceIdentifier] of the absent node store;
    an identifier is composed of the node's IEEE address and a sub-device
    index. *)
Definition nextDeviceIdentifier (n : internalNode) : da.Identifier * internalNode :=
  (da.IEEEAddressWithSubIdentifier (ieeeAddress n) (deviceSubIdentifier n),
   {| ieeeAddress := ieeeAddress n; devices := devices n;
      endpointDescriptions := endpointDescriptions n;
      supportsAPSAck := supportsAPSAck n;
      transactionSequence := transactionSequence n;
      deviceSubIdentifier := deviceSubIdentifier n + 1 |}).

(** Modelled from the spec: [isClusterIdInSlice] of the absent utilities,
    whether an endpoint advertises a cluster in its in-cluster list. *)
Definition isClusterIdInSlice (haystack : list zigbee.ClusterID) (needle : zigbee.ClusterID) : bool :=
  existsb (Z.eqb needle) haystack.

(** Modelled from the spec: [addCapability] of the absent utilities, which
    attaches a flag to the capability set of a device (a set: a flag that
    is present is not added again). *)
Definition addCapability (d : da.Device) (c : da.Capability) : da.Device :=
  if existsb (Z.eqb c) (da.Capabilities d) then d
  else {| da.Gateway := da.Gateway d; da.Identifier_ := da.Identifier_ d;
          da.Capabilities := da.Capabilities d ++ [c] |}.

(** ** The product information capability *)

(** The arguments of [zclGlobalCommunicator.ReadAttributes]. *)
Record ReadRequest := {
  reqAddress : zigbee.IEEEAddress;
  reqRequireAck : bool;
  reqCluster : zigbee.ClusterID;
  reqManufacturer : Z;
  reqSourceEndpoint : zigbee.Endpoint;
  reqDestEndpoint : zigbee.Endpoint;
  reqTransactionSequence : Z;
  reqAttributes : list zcl.AttributeID
}.

(** The interface [zclGlobalCommunicator]: an implementation carries its
    own state and answers a read with records and an error. *)
Class zclGlobalCommunicator (C : Type) := {
  ReadAttributes :
    C -> ReadRequest -> C * (list zcl.ReadAttributeResponseRecord * option error)
}.

(** Modelled from the spec: [retry.Retry] of the imported retry package, up
    to [retries] attempts, stopping at the first attempt without an error
    and returning the last error otherwise. *)
Fixpoint Retry {S : Type} (retries : nat) (f : S -> outcome (S * option error))
    (s : S) (err : option error) : outcome (S * option error) :=
  match retries with
  | O => Returned (s, err)
  | Datatypes.S n =>
      r ← f s;
      match snd r with
      | None => Returned (fst r, None)
      | Some e => Retry n f (fst r) (Some e)
      end
  end.

Section HasProductInformation.
Context `{Constants}.

(** [^mask] on the unsigned present type. *)
Definition complement (mask : Z) : Z := Z.lxor mask (Z.ones present_bits).

(** [record.DataTypeValue.Value.(string)]: a nil pointer or a value of
    another dynamic type panics. *)
Definition stringValue (record : zcl.ReadAttributeResponseRecord) : outcome string :=
  match zcl.DataTypeValue record with
  | Some dtv =>
      match zcl.Value_ dtv with
      | zcl.VString s => Returned s
      | _ => Panicked
      end
  | None => Panicked
  end.

(** The body of the loop over [readRecords]: the switch on
    [record.Identifier]. *)
Definition applyRecord (pi : ProductInformation.t)
    (record : zcl.ReadAttributeResponseRecord) : outcome ProductInformation.t :=
  if zcl.Identifier record =? 0x0004 then
    if zcl.Status record =? 0 then
      s ← stringValue record;
      Returned {| ProductInformation.Manufacturer := s;
                  ProductInformation.Name := ProductInformation.Name pi;
                  ProductInformation.Present :=
                    Z.lor (ProductInformation.Present pi) Manufacturer |}
    else
      Returned {| ProductInformation.Manufacturer := "";
                  ProductInformation.Name := ProductInformation.Name pi;
                  ProductInformation.Present :=
                    Z.land (ProductInformation.Present pi) (complement Manufacturer) |}
  else if zcl.Identifier record =? 0x0005 then
    if zcl.Status record =? 0 then
      s ← stringValue record;
      Returned {| ProductInformation.Manufacturer := ProductInformation.Manufacturer pi;
                  ProductInformation.Name := s;
                  ProductInformation.Present :=
                    Z.lor (ProductInformation.Present pi) Name |}
    else
      Returned {| ProductInformation.Manufacturer := ProductInformation.Manufacturer pi;
                  ProductInformation.Name := "";
                  ProductInformation.Present :=
                    Z.land (ProductInformation.Present pi) (complement Name) |}
  else Returned pi.

Fixpoint applyRecords (pi : ProductInformation.t)
    (records : list zcl.ReadAttributeResponseRecord) : outcome ProductInformation.t :=
  match records with
  | [] => Returned pi
  | record :: rest => pi' ← applyRecord pi record; applyRecords pi' rest
  end.
End HasProductInformation.

Section NodeEnumerationCallback.
Context `{Constants} {C : Type} `{zclGlobalCommunicator C}.

(** What one attempt of the retried closure reads and writes: the
    communicator, the node (its transaction sequence) and the product
    information of the device. *)
Record attemptState := {
  asCommunicator : C;
  asNode : internalNode;
  asInformation : ProductInformation.t
}.

(** What the callback carries from one device to the next. *)
Record callbackState := {
  csCommunicator : C;
  csNode : internalNode;
  csLog : list string
}.

(** [iNode.endpointDescriptions[endpoint]]. *)
Definition endpointDescription (iNode : internalNode) (endpoint : zigbee.Endpoint)
    : zigbee.EndpointDescription :=
  default zigbee.zeroEndpointDescription (endpointDescriptions iNode !! endpoint).

(** The search for [foundEndpoint]: the first endpoint of the device
    whose in-cluster list holds the Basic cluster. *)
Definition findBasicEndpoint (iNode : internalNode) (iDev : internalDevice)
    : option zigbee.Endpoint :=
  find (fun endpoint =>
          isClusterIdInSlice (zigbee.InClusterList (endpointDescription iNode endpoint)) 0x0000)
       (endpoints iDev).

(** The closure passed to [retry.Retry]. *)
Definition readProductInformation (foundEndpoint : zigbee.Endpoint) (st : attemptState)
    : outcome (attemptState * option error) :=
  let sq := nextTransactionSequence (asNode st) in
  let iNode := asNode st in
  let reply :=
    ReadAttributes (asCommunicator st)
      {| reqAddress := ieeeAddress iNode;
         reqRequireAck := supportsAPSAck iNode;
         reqCluster := zcl.BasicId;
         reqManufacturer := 0;
         reqSourceEndpoint := DefaultGatewayHomeAutomationEndpoint;
         reqDestEndpoint := foundEndpoint;
         reqTransactionSequence := fst sq;
         reqAttributes := [0x0004; 0x0005] |} in
  match snd (snd reply) with
  | None =>
      pi ← applyRecords (asInformation st) (fst (snd reply));
      Returned ({| asCommunicator := fst reply; asNode := snd sq;
                   asInformation := pi |}, None)
  | Some err =>
      Returned ({| asCommunicator := fst reply; asNode := snd sq;
                   asInformation := asInformation st |}, Some err)
  end.

(** The body of the loop over [iNode.devices]. *)
Definition enumerateDevice (st : callbackState) (iDev : internalDevice)
    : outcome (callbackState * internalDevice) :=
  match findBasicEndpoint (csNode st) iDev with
  | Some foundEndpoint =>
      r ← Retry DefaultNetworkRetries (readProductInformation foundEndpoint)
            {| asCommunicator := csCommunicator st; asNode := csNode st;
               asInformation := productInformation iDev |} None;
      Returned
        ({| csCommunicator := asCommunicator (fst r);
            csNode := asNode (fst r);
            csLog := match snd r with
                     | Some err =>
                         csLog st ++ [("failed to read product information: " ++ err)%string]
                     | None => csLog st
                     end |},
         {| device := addCapability (device iDev) HasProductInformationFlag;
            endpoints := endpoints iDev;
            productInformation := asInformation (fst r) |})
  | None => Returned (st, iDev)
  end.

Fixpoint enumerateDevices (st : callbackState) (iDevs : list internalDevice)
    : outcome (callbackState * list internalDevice) :=
  match iDevs with
  | [] => Returned (st, [])
  | iDev :: rest =>
      r ← enumerateDevice st iDev;
      rs ← enumerateDevices (fst r) rest;
      Returned (fst rs, snd r :: snd rs)
  end.

(** [ZigbeeHasProductInformation.NodeEnumerationCallback]: the node of the
    event comes back with its devices updated, next to the communicator,
    the log and the returned error. *)
Definition NodeEnumerationCallback (c : C) (log : list string) (iNode : internalNode)
    : outcome (callbackState * option error) :=
  r ← enumerateDevices {| csCommunicator := c; csNode := iNode; csLog := log |}
        (devices iNode);
  Returned ({| csCommunicator := csCommunicator (fst r);
               csNode := withDevices (csNode (fst r)) (snd r);
               csLog := csLog (fst r) |}, None).
End NodeEnumerationCallback.

(** ** gateway.go *)

(** The capability implementations [New] registers, by the struct each
    pointer refers to. *)
Inductive CapabilityImpl :=
| PtrZigbeeDeviceDiscovery
| PtrZigbeeEnumerateDevice
| PtrZigbeeLocalDebug
| PtrZigbeeHasProductInformation
| PtrZigbeeOnOff.

(** Events of the internal bus; a node pointer is the key of the node in
    the gateway's [nodes] map. *)
Inductive internalEvent :=
| internalNodeJoin (node : zigbee.IEEEAddress)
| internalNodeLeave (node : zigbee.IEEEAddress)
| internalNodeEnumeration (node : zigbee.IEEEAddress).

(** Handlers added to the internal bus: the callback of this package's
    product information capability, [enableAPSACK], and whatever the [Init]
    of a capability declared in another file adds. *)
Inductive Callback :=
| CallbackNodeEnumerationProductInformation
| CallbackEnableAPSACK
| CallbackInitOf (impl : CapabilityImpl).

(** Events of the egress channel, a [chan interface{}]. *)
Inductive Event :=
| DeviceDiscoveryAllowed (d : da.Device) (duration : Z)
| DeviceDiscoveryDenied (d : da.Device)
| OtherEvent (tag : Z).

(** What the provider handler does to its collaborators, in order. *)
Inductive Effect :=
| Called (e : internalEvent)
| AddedNode (ieee : zigbee.IEEEAddress)
| AddedDevice (id : da.Identifier)
| RemovedDevice (id : da.Identifier)
| RemovedNode (ieee : zigbee.IEEEAddress)
| ProcessedIncomingMessage (ieee : zigbee.IEEEAddress) (payload : list Z).

(** The [zigbee.Provider] as the gateway's own methods use it: the adapter
    node's address and the answer to [RegisterAdapterEndpoint]. *)
Record Provider := {
  AdapterNodeIEEEAddress : zigbee.IEEEAddress;
  RegisterAdapterEndpoint : option error
}.

Module zgw.
(** [ZigbeeGateway].  The Go maps hold pointers and a device object is
    shared by [devices] and the device list of its node; the embedding
    keeps each object once, in its node, and [devices] maps a registered
    identifier to the key of the owning node.  [trace] and [output] record
    the calls made on the bus and the store, and the lines printed. *)
Record t := {
  provider : Provider;
  self : internalDevice;
  providerHandlerStop : list bool;
  contextCancelled : bool;
  events : list Event;
  capabilities : gmap Z CapabilityImpl;
  devices : gmap da.Identifier Z;
  nodes : gmap Z internalNode;
  callbacks : list Callback;
  pollerRunning : bool;
  providerHandlerRunning : bool;
  started : list CapabilityImpl;
  trace : list Effect;
  output : list string
}.

Definition setSelf (z : t) (x : internalDevice) : t :=
  {| provider := provider z; self := x;
     providerHandlerStop := providerHandlerStop z;
     contextCancelled := contextCancelled z; events := events z;
     capabilities := capabilities z; devices := devices z; nodes := nodes z;
     callbacks := callbacks z; pollerRunning := pollerRunning z;
     providerHandlerRunning := providerHandlerRunning z;
     started := started z; trace := trace z; output := output z |}.

Definition setEvents (z : t) (x : list Event) : t :=
  {| provider := provider z; self := self z;
     providerHandlerStop := providerHandlerStop z;
     contextCancelled := contextCancelled z; events := x;
     capabilities := capabilities z; devices := devices z; nodes := nodes z;
     callbacks := callbacks z; pollerRunning := pollerRunning z;
     providerHandlerRunning := providerHandlerRunning z;
     started := started z; trace := trace z; output := output z |}.

Definition setOutput (z : t) (x : list string) : t :=
  {| provider := provider z; self := self z;
     providerHandlerStop := providerHandlerStop z;
     contextCancelled := contextCancelled z; events := events z;
     capabilities := capabilities z; devices := devices z; nodes := nodes z;
     callbacks := callbacks z; pollerRunning := pollerRunning z;
     providerHandlerRunning := providerHandlerRunning z;
     started := started z; trace := trace z; output := x |}.

(** A write through a node pointer. *)
Definition setNodes (z : t) (ns : gmap Z internalNode) : t :=
  {| provider := provider z; self := self z;
     providerHandlerStop := providerHandlerStop z;
     contextCancelled := contextCancelled z; events := events z;
     capabilities := capabilities z; devices := devices z; nodes := ns;
     callbacks := callbacks z; pollerRunning := pollerRunning z;
     providerHandlerRunning := providerHandlerRunning z;
     started := started z; trace := trace z; output := output z |}.

(** One call on the store or the bus: the maps after it and its entry in
    the trace. *)
Definition setStore (z : t) (ds : gmap da.Identifier Z)
    (ns : gmap Z internalNode) (e : Effect) : t :=
  {| provider := provider z; self := self z;
     providerHandlerStop := providerHandlerStop z;
     contextCancelled := contextCancelled z; events := events z;
     capabilities := capabilities z; devices := ds; nodes := ns;
     callbacks := callbacks z; pollerRunning := pollerRunning z;
     providerHandlerRunning := providerHandlerRunning z;
     started := started z; trace := trace z ++ [e]; output := output z |}.

Definition setRunning (z : t) (stop : list bool) (cancelled poller handler : bool)
    (st : list CapabilityImpl) : t :=
  {| provider := provider z; self := self z;
     providerHandlerStop := stop;
     contextCancelled := cancelled; events := events z;
     capabilities := capabilities z; devices := devices z; nodes := nodes z;
     callbacks := callbacks z; pollerRunning := poller;
     providerHandlerRunning := handler;
     started := st; trace := trace z; output := output z |}.
End zgw.

(** *** The node and device store *)

Definition newNode (ieee : zigbee.IEEEAddress) : internalNode :=
  {| ieeeAddress := ieee; devices := []; endpointDescriptions := ∅;
     supportsAPSAck := false; transactionSequence := 0; deviceSubIdentifier := 0 |}.

Definition newDevice (identifier : da.Identifier) : internalDevice :=
  {| device := {| da.Gateway := Some da.ZigbeeGatewayRef;
                  da.Identifier_ := identifier;
                  da.Capabilities := [] |};
     endpoints := [];
     productInformation := ProductInformation.zero |}.

(** Modelled from the spec: [getNode] of the absent node store,
    [get_node(ieee) → Option<Node>]. *)
Definition getNode (ieee : zigbee.IEEEAddress) (z : zgw.t) : option internalNode :=
  zgw.nodes z !! ieee.

(** Modelled from the spec: [addNode] of the absent node store,
    [add_node(ieee) → Node]; the node is created without devices. *)
Definition addNode (ieee : zigbee.IEEEAddress) (z : zgw.t) : internalNode * zgw.t :=
  (newNode ieee,
   zgw.setStore z (zgw.devices z) (<[ieee := newNode ieee]> (zgw.nodes z)) (AddedNode ieee)).

(** Modelled from the spec: [removeNode] of the absent node store,
    [remove_node(ieee)]. *)
Definition removeNode (ieee : zigbee.IEEEAddress) (z : zgw.t) : zgw.t :=
  zgw.setStore z (zgw.devices z) (delete ieee (zgw.nodes z)) (RemovedNode ieee).

(** Modelled from the spec: [addDevice] of the absent device store, which
    appends to the owning node's device list and registers the identifier
    in the global map; the device is created with no capabilities. *)
Definition addDevice (identifier : da.Identifier) (node : zigbee.IEEEAddress)
    (z : zgw.t) : zgw.t :=
  zgw.setStore z
    (<[identifier := node]> (zgw.devices z))
    (alter (fun n => withDevices n (devices n ++ [newDevice identifier])) node (zgw.nodes z))
    (AddedDevice identifier).

Definition hasIdentifier (identifier : da.Identifier) (iDev : internalDevice) : bool :=
  bool_decide (da.Identifier_ (device iDev) = identifier).

(** Modelled from the spec: [removeDevice] of the absent device store, which
    unregisters the identifier from the global map and the device from the
    owning node's list. *)
Definition removeDevice (identifier : da.Identifier) (z : zgw.t) : zgw.t :=
  match zgw.devices z !! identifier with
  | Some node =>
      zgw.setStore z
        (delete identifier (zgw.devices z))
        (alter (fun n => withDevices n
                  (List.filter (fun iDev => negb (hasIdentifier identifier iDev)) (devices n)))
               node (zgw.nodes z))
        (RemovedDevice identifier)
  | None => zgw.setStore z (zgw.devices z) (zgw.nodes z) (RemovedDevice identifier)
  end.

(** Modelled from the spec: [getDevice] of the absent device store,
    [get_device(id) → Option<Device>]. *)
Definition getDevice (identifier : da.Identifier) (z : zgw.t) : option internalDevice :=
  node ← zgw.devices z !! identifier;
  n ← zgw.nodes z !! node;
  find (hasIdentifier identifier) (devices n).

(** [z.callbacks.Call(ctx, event)]: the handlers belong to other files; the
    embedding records the publication. *)
Definition Call (e : internalEvent) (z : zgw.t) : zgw.t :=
  zgw.setStore z (zgw.devices z) (zgw.nodes z) (Called e).

(** *** The gateway's methods *)

(** Capacity of the [events] channel: [make(chan interface{}, 100)]. *)
Definition eventsCapacity : nat := 100.

Section Gateway.
Context `{Constants}.

(** [initable.Init()]: this package's product information capability adds
    its enumeration callback; the other capabilities are declared
    elsewhere. *)
Definition Init (impl : CapabilityImpl) : list Callback :=
  match impl with
  | PtrZigbeeHasProductInformation => [CallbackNodeEnumerationProductInformation]
  | _ => [CallbackInitOf impl]
  end.

Definition initOrder : list da.Capability :=
  [DeviceDiscoveryFlag; EnumerateDeviceFlag; LocalDebugFlag;
   HasProductInformationFlag; OnOffFlag].

(** The capability map after the five assignments of [New]. *)
Definition registeredCapabilities : gmap Z CapabilityImpl :=
  <[OnOffFlag := PtrZigbeeOnOff]>
    (<[HasProductInformationFlag := PtrZigbeeHasProductInformation]>
       (<[LocalDebugFlag := PtrZigbeeLocalDebug]>
          (<[EnumerateDeviceFlag := PtrZigbeeEnumerateDevice]>
             (<[DeviceDiscoveryFlag := PtrZigbeeDeviceDiscovery]> ∅)))).

Definition New (provider : Provider) : zgw.t :=
  {| zgw.provider := provider;
     zgw.self := zeroInternalDevice;
     zgw.providerHandlerStop := [];
     zgw.contextCancelled := false;
     zgw.events := [];
     zgw.capabilities := registeredCapabilities;
     zgw.devices := ∅;
     zgw.nodes := ∅;
     zgw.callbacks :=
       flat_map (fun capability =>
                   match registeredCapabilities !! capability with
                   | Some impl => Init impl
                   | None => []
                   end) initOrder
       ++ [CallbackEnableAPSACK];
     zgw.pollerRunning := false;
     zgw.providerHandlerRunning := false;
     zgw.started := [];
     zgw.trace := [];
     zgw.output := [] |}.

(** [Start]: the Self device is filled in before the adapter endpoint is
    registered; a registration error returns early. *)
Definition Start (z : zgw.t) : zgw.t * option error :=
  let z1 :=
    zgw.setSelf z
      {| device := {| da.Gateway := Some da.ZigbeeGatewayRef;
                      da.Identifier_ :=
                        da.IEEEAddress (AdapterNodeIEEEAddress (zgw.provider z));
                      da.Capabilities := [DeviceDiscoveryFlag] |};
         endpoints := endpoints (zgw.self z);
         productInformation := productInformation (zgw.self z) |} in
  match RegisterAdapterEndpoint (zgw.provider z) with
  | Some err => (z1, Some err)
  | None =>
      (zgw.setRunning z1 (zgw.providerHandlerStop z1) (zgw.contextCancelled z1)
         true true (map snd (map_to_list (zgw.capabilities z1))),
       None)
  end.

(** [Stop]: a value is sent on [providerHandlerStop], the context is
    cancelled, the poller and the capabilities are stopped. *)
Definition Stop (z : zgw.t) : zgw.t * option error :=
  (zgw.setRunning z (zgw.providerHandlerStop z ++ [true]) true false
     (zgw.providerHandlerRunning z) [],
   None).
End Gateway.

(** The [NodeJoinEvent] case of [providerHandler]. *)
Definition handleNodeJoin (ieee : zigbee.IEEEAddress) (z : zgw.t) : zgw.t :=
  let found :=
    match getNode ieee z with
    | Some iNode => (iNode, z)
    | None => addNode ieee z
    end in
  if (length (getDevices (fst found)) =? 0)%nat then
    let next := nextDeviceIdentifier (fst found) in
    Call (internalNodeJoin ieee)
      (addDevice (fst next) ieee
         (zgw.setNodes (snd found) (<[ieee := snd next]> (zgw.nodes (snd found)))))
  else snd found.

(** The [NodeLeaveEvent] case of [providerHandler]. *)
Definition handleNodeLeave (ieee : zigbee.IEEEAddress) (z : zgw.t) : zgw.t :=
  match getNode ieee z with
  | Some iNode =>
      removeNode ieee
        (fold_left (fun z' iDev => removeDevice (da.Identifier_ (device iDev)) z')
           (getDevices iNode)
           (Call (internalNodeLeave ieee) z))
  | None => z
  end.

(** The switch of [providerHandler] on the type of the event. *)
Definition dispatch (event : zigbee.Event) (z : zgw.t) : zgw.t :=
  match event with
  | zigbee.NodeJoinEvent ieee => handleNodeJoin ieee z
  | zigbee.NodeLeaveEvent ieee => handleNodeLeave ieee z
  | zigbee.NodeIncomingMessageEvent ieee payload =>
      zgw.setStore z (zgw.devices z) (zgw.nodes z) (ProcessedIncomingMessage ieee payload)
  | zigbee.NoEvent => z
  end.




(** [sendEvent]: a send that does not block; with the buffer full the
    [default] case prints a warning. *)
Definition sendEvent (event : Event) (z : zgw.t) : zgw.t :=
  if (length (zgw.events z) <? eventsCapacity)%nat then
    zgw.setEvents z (zgw.events z ++ [event])
  else
    zgw.setOutput z
      (zgw.output z ++ ["warning could not send event, channel buffer full"%string]).

(** [ReadEvent]: the select takes the oldest event of the channel, or,
    when the context is done and the select takes that case ([done]),
    returns [ContextExpired]; on an empty channel the call waits until the
    context is done. *)
Definition ReadEvent (done : bool) (z : zgw.t) : zgw.t * (option Event * option error) :=
  match zgw.events z with
  | event :: rest =>
      if done then (z, (None, Some zigbee.ContextExpired))
      else (zgw.setEvents z rest, (Some event, None))
  | [] => (z, (None, Some zigbee.ContextExpired))
  end.

(** [Capability]: the map read; [None] is the [nil] interface. *)
Definition Capability (capability : da.Capability) (z : zgw.t) : option CapabilityImpl :=
  zgw.capabilities z !! capability.

Definition Self (z : zgw.t) : da.Device := device (zgw.self z).

(** [Devices]: Go ranges over [z.nodes] in an order of its choosing;
    [map_to_list] is one such order. *)
Definition Devices (z : zgw.t) : list da.Device :=
  fold_left
    (fun devs node => fold_left (fun devs' iDev => devs' ++ [device iDev]) (devices node) devs)
    (map snd (map_to_list (zgw.nodes z)))
    [device (zgw.self z)].

(** ** The device discovery capability *)

Module ZigbeeDeviceDiscovery.
(** Modelled from the spec: the state of [ZigbeeDeviceDiscovery], whose
    implementation file is absent: the discovering flag (the field the
    tests set) and the absolute expiry of the allow window. *)
Record t := {
  discovering : bool;
  expiry : option Z
}.

Record Status := {
  Discovering : bool;
  RemainingDuration : Z
}.

Definition NotSelfDevice : error := "not self device"%string.

Definition isSelf (d : da.Device) (z : zgw.t) : bool :=
  bool_decide (da.Identifier_ d = da.Identifier_ (Self z)).

(** Modelled from the spec: [allow(self_dev, duration)] rejects a device
    that is not Self, calls the provider's [permit_join(true)] (its answer
    is [permitJoin]); if that call fails the state is not mutated and the
    error is returned verbatim; otherwise the window is open, an expiry
    that is already set is only extended, and [DeviceDiscoveryAllowed] is
    emitted. *)
Definition Allow (now duration : Z) (d : da.Device) (permitJoin : option error)
    (zdd : t) (z : zgw.t) : (t * zgw.t) * option error :=
  if isSelf d z then
    match permitJoin with
    | Some err => ((zdd, z), Some err)
    | None =>
        (({| discovering := true;
             expiry := Some (match expiry zdd with
                             | Some current => Z.max current (now + duration)
                             | None => now + duration
                             end) |},
          sendEvent (DeviceDiscoveryAllowed d duration) z), None)
    end
  else ((zdd, z), Some NotSelfDevice).

(** Modelled from the spec: [deny(self_dev)] rejects a device that is not
    Self, calls the provider's [deny_join()] (its answer is [denyJoin]);
    if that call fails the state is not mutated and the error is returned
    verbatim; otherwise the window is closed, the expiry cleared and
    [DeviceDiscoveryDenied] emitted. *)
Definition Deny (d : da.Device) (denyJoin : option error)
    (zdd : t) (z : zgw.t) : (t * zgw.t) * option error :=
  if isSelf d z then
    match denyJoin with
    | Some err => ((zdd, z), Some err)
    | None =>
        (({| discovering := false; expiry := None |},
          sendEvent (DeviceDiscoveryDenied d) z), None)
    end
  else ((zdd, z), Some NotSelfDevice).

(** Modelled from the spec: [status(self_dev)]. *)
Definition Status_ (now : Z) (d : da.Device) (zdd : t) (z : zgw.t)
    : Status * option error :=
  if isSelf d z then
    ({| Discovering := discovering zdd;
        RemainingDuration := match expiry zdd with
                             | Some e => Z.max 0 (e - now)
                             | None => 0
                             end |}, None)
  else ({| Discovering := false; RemainingDuration := 0 |}, Some NotSelfDevice).
End ZigbeeDeviceDiscovery.

(** ** Concrete collaborators, for evaluating the model *)

Definition exampleConstants : Constants :=
  {| DeviceDiscoveryFlag := 0; EnumerateDeviceFlag := 1; LocalDebugFlag := 2;
     HasProductInformationFlag := 3; OnOffFlag := 4;
     present_bits := 8; Manufacturer := 1; Name := 2;
     DefaultNetworkRetries := 5 |}.

(** A communicator that answers from a script, one reply per call, and
    reports an error once the script is used up. *)
Definition scriptedCommunicator :
    zclGlobalCommunicator (list (list zcl.ReadAttributeResponseRecord * option error)) :=
  {| ReadAttributes c _ :=
       match c with
       | reply :: rest => (rest, reply)
       | [] => ([], ([], Some "no response"%string))
       end |}.

Definition exampleProvider : Provider :=
  {| AdapterNodeIEEEAddress := 0x00124b0001020304; RegisterAdapterEndpoint := None |}.

Definition stringRecord (id : Z) (s : string) : zcl.ReadAttributeResponseRecord :=
  {| zcl.Identifier := id; zcl.Status := 0;
     zcl.DataTypeValue := Some {| zcl.DataType := 0x42; zcl.Value_ := zcl.VString s |} |}.

Definition failedRecord (id : Z) (status : Z) : zcl.ReadAttributeResponseRecord :=
  {| zcl.Identifier := id; zcl.Status := status; zcl.DataTypeValue := None |}.

(** A record that reports success for an attribute and carries an unsigned
    integer, as a device that does not follow the Basic cluster may send. *)
Definition mistypedRecord (id : Z) (n : Z) : zcl.ReadAttributeResponseRecord :=
  {| zcl.Identifier := id; zcl.Status := 0;
     zcl.DataTypeValue := Some {| zcl.DataType := 0x20; zcl.Value_ := zcl.VUint n |} |}.


(** A node with one device on endpoint 1, which advertises Basic and
    OnOff. *)
Definition exampleNode : internalNode :=
  {| ieeeAddress := 0xAABB;
     devices := [ {| device := {| da.Gateway := Some da.ZigbeeGatewayRef;
                                  da.Identifier_ := da.IEEEAddressWithSubIdentifier 0xAABB 0;
                                  da.Capabilities := [] |};
                     endpoints := [1];
                     productInformation := ProductInformation.zero |} ];
     endpointDescriptions :=
       {[ 1 := {| zigbee.ProfileID := 0x0104; zigbee.DeviceID := 0x0100;
                  zigbee.InClusterList := [0x0000; 0x0006];
                  zigbee.OutClusterList := [] |} ]};
     supportsAPSAck := false;
     transactionSequence := 0;
     deviceSubIdentifier := 1 |}.

(** A communicator with a call counter as its state: the first two reads
    time out, every later one answers with the manufacturer and a failed
    model name. *)
Definition countingCommunicator : zclGlobalCommunicator nat :=
  {| ReadAttributes c _ :=
       (Datatypes.S c,
        if (c <? 2)%nat then ([], Some "timeout"%string)
        else ([stringRecord 0x0004 "Acme"; failedRecord 0x0005 0x86], None)) |}.

(** ** Predicates of the properties *)

Section Predicates.
Context `{Constants}.

(** All bits of [mask] are set, respectively clear, in the present mask. *)
Definition presentSet (pi : ProductInformation.t) (mask : Z) : Prop :=
  Z.land (ProductInformation.Present pi) mask = mask.

Definition presentClear (pi : ProductInformation.t) (mask : Z) : Prop :=
  Z.land (ProductInformation.Present pi) mask = 0.

(** The two present masks fit their type and share no bit. *)
Definition presentMasksFit : Prop :=
  ConstantsFit /\ Z.land Manufacturer Name = 0.

(** A record the switch stores from carries a string: the case in which
    the type assertion of [applyRecord] succeeds. *)
Definition carriesString (record : zcl.ReadAttributeResponseRecord) : bool :=
  if ((zcl.Identifier record =? 0x0004) || (zcl.Identifier record =? 0x0005))
     && (zcl.Status record =? 0)
  then match stringValue record with
       | Returned _ => true
       | Panicked => false
       end
  else true.

(** The last record of a reply for one attribute. *)
Definition lastRecordFor (id : zcl.AttributeID)
    (records : list zcl.ReadAttributeResponseRecord)
    : option zcl.ReadAttributeResponseRecord :=
  find (fun record => zcl.Identifier record =? id) (rev records).

(** The field of an attribute is the empty string and its bit is clear. *)
Definition fieldCleared (id : zcl.AttributeID) (pi : ProductInformation.t) : Prop :=
  (id = 0x0004 -> ProductInformation.Manufacturer pi = ""%string /\ presentClear pi Manufacturer) /\
  (id = 0x0005 -> ProductInformation.Name pi = ""%string /\ presentClear pi Name).

(** The field of an attribute holds [s] and its bit is set. *)
Definition fieldStored (id : zcl.AttributeID) (s : string) (pi : ProductInformation.t) : Prop :=
  (id = 0x0004 -> ProductInformation.Manufacturer pi = s /\ presentSet pi Manufacturer) /\
  (id = 0x0005 -> ProductInformation.Name pi = s /\ presentSet pi Name).

Definition hasCapability (c : da.Capability) (d : da.Device) : Prop :=
  In c (da.Capabilities d).

End Predicates.

Section CommunicatorPredicates.
Context `{Constants} {C : Type} `{zclGlobalCommunicator C}.

(** Every reply without an error holds only records that carry the
    strings the switch stores. *)
Definition repliesCarryStrings : Prop :=
  forall (c : C) (req : ReadRequest),
    snd (snd (ReadAttributes c req)) = None ->
    forallb carriesString (fst (snd (ReadAttributes c req))) = true.

(** How the product information of a device with a Basic endpoint relates
    to what it was before the callback: either no attempt was answered
    and it is what it was, or the records of an answered read were
    applied to it. *)
Definition informationRead (before after : ProductInformation.t) : Prop :=
  after = before \/
  exists (c : C) (req : ReadRequest) (records : list zcl.ReadAttributeResponseRecord),
    fst (snd (ReadAttributes c req)) = records /\
    snd (snd (ReadAttributes c req)) = None /\
    reqAttributes req = [0x0004; 0x0005] /\
    applyRecords before records = Returned after.


(** What the callback does to one device of the node: a device with an
    endpoint that advertises Basic has the capability attached and its
    product information read; any other device is left as it is. *)
Definition enumerated (read : ProductInformation.t -> ProductInformation.t -> Prop)
    (iNode : internalNode) (iDev iDev' : internalDevice) : Prop :=
  endpoints iDev' = endpoints iDev /\
  match findBasicEndpoint iNode iDev with
  | Some _ =>
      hasCapability HasProductInformationFlag (device iDev') /\
      read (productInformation iDev) (productInformation iDev')
  | None => iDev' = iDev
  end.

(** No read is ever answered without an error. *)
Definition alwaysFails : Prop :=
  forall (c : C) (req : ReadRequest), snd (snd (ReadAttributes c req)) <> None.

(** The devices of a node the callback reads from. *)
Definition basicDevices (iNode : internalNode) (iDevs : list internalDevice)
    : list internalDevice :=
  List.filter (fun iDev => bool_decide (is_Some (findBasicEndpoint iNode iDev))) iDevs.
End CommunicatorPredicates.

(** Two states of a node that differ in the transaction sequence only. *)
Definition sameNodeData (n n' : internalNode) : Prop :=
  ieeeAddress n' = ieeeAddress n /\
  devices n' = devices n /\
  endpointDescriptions n' = endpointDescriptions n /\
  supportsAPSAck n' = supportsAPSAck n /\
  deviceSubIdentifier n' = deviceSubIdentifier n.



(** The operations that leave the Self device to [Start]. *)
Inductive GatewayOp :=
| OpDispatch (event : zigbee.Event)
| OpSendEvent (event : Event)
| OpReadEvent (done : bool)
| OpStop.

Definition gatewayOp `{Constants} (z : zgw.t) (op : GatewayOp) : zgw.t :=
  match op with
  | OpDispatch event => dispatch event z
  | OpSendEvent event => sendEvent event z
  | OpReadEvent done => fst (ReadEvent done z)
  | OpStop => fst (Stop z)
  end.

(** The device identifiers of a node's devices, in order. *)
Definition deviceIdentifiers (iNode : internalNode) : list da.Identifier :=
  map (fun iDev => da.Identifier_ (device iDev)) (getDevices iNode).

(** ** The rest of the two files *)

(** [da.DeviceDoesNotBelongToGatewayError] and
    [da.DeviceDoesNotHaveCapability] of the imported package [da]. *)
Definition DeviceDoesNotBelongToGatewayError : error :=
  "device does not belong to gateway"%string.
Definition DeviceDoesNotHaveCapability : error :=
  "device does not have capability"%string.

(** [da.DeviceDoesNotBelongToGateway(gateway, device)] of the imported
    package [da]: the device refers back to another gateway or to none. *)
Definition DeviceDoesNotBelongToGateway (d : da.Device) : bool :=
  match da.Gateway d with
  | Some da.ZigbeeGatewayRef => false
  | None => true
  end.

(** [device.HasCapability(flag)] of the imported package [da]: the flag is
    in the capability list of the device value. *)
Definition HasCapability (d : da.Device) (c : da.Capability) : bool :=
  existsb (Z.eqb c) (da.Capabilities d).

Section ProductInformationMethod.
Context `{Constants}.

(** [ZigbeeHasProductInformation.ProductInformation]: the two checks read
    the device value that is passed; the information is read from the
    stored device.  The second result of [getDevice] is dropped, so for an
    identifier that is not registered the read goes through a nil
    pointer. *)
Definition GetProductInformation (z : zgw.t) (d : da.Device)
    : outcome (ProductInformation.t * option error) :=
  if DeviceDoesNotBelongToGateway d then
    Returned (ProductInformation.zero, Some DeviceDoesNotBelongToGatewayError)
  else if negb (HasCapability d HasProductInformationFlag) then
    Returned (ProductInformation.zero, Some DeviceDoesNotHaveCapability)
  else
    match getDevice (da.Identifier_ d) z with
    | Some iDev => Returned (productInformation iDev, None)
    | None => Panicked
    end.

(** The five flags of [New] are five different numbers. *)
Definition flagsDistinct : Prop := NoDup initOrder.
End ProductInformationMethod.

Section Recording.
Context {C : Type} `{zclGlobalCommunicator C}.

(** A communicator that keeps the requests it is given, in order, next to
    the state of the communicator that answers. *)
Definition recordingCommunicator : zclGlobalCommunicator (C * list ReadRequest) :=
  {| ReadAttributes cr req :=
       ((fst (ReadAttributes (fst cr) req), snd cr ++ [req]),
        snd (ReadAttributes (fst cr) req)) |}.
End Recording.

Section AnsweredPredicate.
Context {C : Type} `{zclGlobalCommunicator C}.

(** Every read is answered without an error. *)
Definition alwaysAnswers : Prop :=
  forall (c : C) (req : ReadRequest), snd (snd (ReadAttributes c req)) = None.
End AnsweredPredicate.

(** A communicator that answers every read in full, and one that answers
    none. *)
Definition answeringCommunicator : zclGlobalCommunicator unit :=
  {| ReadAttributes c _ :=
       (c, ([stringRecord 0x0004 "Acme"; stringRecord 0x0005 "Bulb1"], None)) |}.

Definition silentCommunicator : zclGlobalCommunicator unit :=
  {| ReadAttributes c _ := (c, ([], Some "timeout"%string)) |}.

(** An endpoint of the node that advertises the Basic cluster. *)
Definition advertisesBasic (iNode : internalNode) (endpoint : zigbee.Endpoint) : bool :=
  isClusterIdInSlice
    (zigbee.InClusterList
       (default zigbee.zeroEndpointDescription (endpointDescriptions iNode !! endpoint)))
    0x0000.

(** A read of the product information of a device of the node: the
    arguments the closure passes. *)
Definition productInformationRequest (iNode : internalNode) (iDevs : list internalDevice)
    (req : ReadRequest) : Prop :=
  reqAddress req = ieeeAddress iNode /\
  reqRequireAck req = supportsAPSAck iNode /\
  reqCluster req = zcl.BasicId /\
  reqManufacturer req = 0 /\
  reqSourceEndpoint req = DefaultGatewayHomeAutomationEndpoint /\
  reqAttributes req = [0x0004; 0x0005] /\
  exists iDev, In iDev iDevs /\
    find (advertisesBasic iNode) (endpoints iDev) = Some (reqDestEndpoint req).

(** The request of one attempt on a node, to one endpoint. *)
Definition requestTo (iNode : internalNode) (endpoint : zigbee.Endpoint)
    (req : ReadRequest) : Prop :=
  reqAddress req = ieeeAddress iNode /\
  reqRequireAck req = supportsAPSAck iNode /\
  reqCluster req = zcl.BasicId /\
  reqManufacturer req = 0 /\
  reqSourceEndpoint req = DefaultGatewayHomeAutomationEndpoint /\
  reqAttributes req = [0x0004; 0x0005] /\
  reqDestEndpoint req = endpoint.

(** A node with one device on endpoint 1, which advertises OnOff only, and
    an endpoint 2 that has no description. *)
Definition exampleSwitchNode : internalNode :=
  {| ieeeAddress := 0xCCDD;
     devices := [ {| device := {| da.Gateway := Some da.ZigbeeGatewayRef;
                                  da.Identifier_ := da.IEEEAddressWithSubIdentifier 0xCCDD 0;
                                  da.Capabilities := [] |};
                     endpoints := [1; 2];
                     productInformation := ProductInformation.zero |} ];
     endpointDescriptions :=
       {[ 1 := {| zigbee.ProfileID := 0x0104; zigbee.DeviceID := 0x0100;
                  zigbee.InClusterList := [0x0006];
                  zigbee.OutClusterList := [] |} ]};
     supportsAPSAck := false;
     transactionSequence := 0;
     deviceSubIdentifier := 1 |}.

(** What the callback keeps of a device: the gateway, the identifier, the
    endpoints and every capability it had. *)
Definition deviceKept (iDev iDev' : internalDevice) : Prop :=
  da.Gateway (device iDev') = da.Gateway (device iDev) /\
  da.Identifier_ (device iDev') = da.Identifier_ (device iDev) /\
  endpoints iDev' = endpoints iDev /\
  incl (da.Capabilities (device iDev)) (da.Capabilities (device iDev')).

(** [sendEvent] for each event of a list, in order. *)
Definition sendEvents (events : list Event) (z : zgw.t) : zgw.t :=
  fold_left (fun z' event => sendEvent event z') events z.

(** [n] calls of [ReadEvent] whose context is not done: the events read,
    in order, and the gateway after the last call. *)
Fixpoint readEvents (n : nat) (z : zgw.t) : list Event * zgw.t :=
  match n with
  | O => ([], z)
  | S n' =>
      match fst (snd (ReadEvent false z)) with
      | Some event =>
          (event :: fst (readEvents n' (fst (ReadEvent false z))),
           snd (readEvents n' (fst (ReadEvent false z))))
      | None => readEvents n' (fst (ReadEvent false z))
      end
  end.


(** * Properties *)

Section BitLemmas.
Context `{Constants}.

Lemma land_lor_same (p m : Z) : Z.land (Z.lor p m) m = m.
Proof.
  apply Z.bits_inj'. intros n Hn.
  rewrite Z.land_spec, Z.lor_spec.
  destruct (Z.testbit p n), (Z.testbit m n); reflexivity.
Qed.

Lemma land_complement_same (p m : Z) :
  0 <= present_bits -> 0 <= m < 2 ^ present_bits ->
  Z.land (Z.land p (complement m)) m = 0.
Proof.
  intros Hb Hm. apply Z.bits_inj'. intros n Hn.
  rewrite !Z.land_spec, Z.bits_0. unfold complement.
  rewrite Z.lxor_spec.
  destruct (Z_lt_ge_dec n present_bits) as [Hlt | Hge].
  - rewrite Z.ones_spec_low by lia.
    destruct (Z.testbit p n), (Z.testbit m n); reflexivity.
  - assert (Z.testbit m n = false) as ->.
    { destruct (Z.eq_dec m 0) as [-> | Hz]; [apply Z.bits_0 |].
      apply Z.bits_above_log2; [lia |].
      apply Z.log2_lt_pow2; [lia |].
      apply Z.lt_le_trans with (2 ^ present_bits); [lia |].
      apply Z.pow_le_mono_r; lia. }
    rewrite Bool.andb_false_r. reflexivity.
Qed.

(** Setting or clearing a mask leaves the bits of a disjoint mask. *)
Lemma land_lor_other (p m k : Z) :
  Z.land m k = 0 -> Z.land (Z.lor p m) k = Z.land p k.
Proof.
  intros Hd. rewrite Z.land_lor_distr_l, Hd. apply Z.lor_0_r.
Qed.

Lemma land_complement_other (p m k : Z) :
  0 <= present_bits -> 0 <= k < 2 ^ present_bits -> Z.land m k = 0 ->
  Z.land (Z.land p (complement m)) k = Z.land p k.
Proof.
  intros Hb Hk Hd. apply Z.bits_inj'. intros n Hn.
  rewrite !Z.land_spec. unfold complement. rewrite Z.lxor_spec.
  assert (Hbit : Z.testbit (Z.land m k) n = false) by (rewrite Hd; apply Z.bits_0).
  rewrite Z.land_spec in Hbit.
  destruct (Z_lt_ge_dec n present_bits) as [Hlt | Hge].
  - rewrite Z.ones_spec_low by lia.
    destruct (Z.testbit p n), (Z.testbit m n), (Z.testbit k n);
      simpl in *; congruence.
  - assert (Z.testbit k n = false) as ->.
    { destruct (Z.eq_dec k 0) as [-> | Hz]; [apply Z.bits_0 |].
      apply Z.bits_above_log2; [lia |].
      apply Z.log2_lt_pow2; [lia |].
      apply Z.lt_le_trans with (2 ^ present_bits); [lia |].
      apply Z.pow_le_mono_r; lia. }
    rewrite !Bool.andb_false_r. reflexivity.
Qed.
End BitLemmas.

Section ProductInformationRecords.
Context `{Constants}.

Lemma applyRecord_other (pi : ProductInformation.t)
    (record : zcl.ReadAttributeResponseRecord) :
  zcl.Identifier record <> 0x0004 -> zcl.Identifier record <> 0x0005 ->
  applyRecord pi record = Returned pi.
Proof.
  intros H4 H5. unfold applyRecord.
  destruct (Z.eqb_spec (zcl.Identifier record) 4); [contradiction |].
  destruct (Z.eqb_spec (zcl.Identifier record) 5); [contradiction |].
  reflexivity.
Qed.

(** What the switch does with a record of one of the two attributes. *)
Lemma applyRecord_status (Hfit : ConstantsFit)
    (pi : ProductInformation.t) (record : zcl.ReadAttributeResponseRecord) :
  zcl.Identifier record = 0x0004 \/ zcl.Identifier record = 0x0005 ->
  (forall s, zcl.Status record = 0 -> stringValue record = Returned s ->
     exists pi', applyRecord pi record = Returned pi' /\
                 fieldStored (zcl.Identifier record) s pi') /\
  (zcl.Status record <> 0 ->
     exists pi', applyRecord pi record = Returned pi' /\
                 fieldCleared (zcl.Identifier record) pi').
Proof.
  destruct Hfit as [Hb HM HN].
  intros Hid. split.
  - intros s Hst Hs. unfold applyRecord. rewrite Hst, Hs. simpl.
    destruct Hid as [-> | ->]; simpl; eexists; (split; [reflexivity |]);
      unfold fieldStored, presentSet; simpl;
      (split; intros Heq; [| try discriminate Heq]); try discriminate Heq;
      (split; [reflexivity | apply land_lor_same]).
  - intros Hst. unfold applyRecord.
    destruct (Z.eqb_spec (zcl.Status record) 0) as [? | _]; [contradiction |].
    destruct Hid as [-> | ->]; simpl; eexists; (split; [reflexivity |]);
      unfold fieldCleared, presentClear; simpl;
      (split; intros Heq; [| try discriminate Heq]); try discriminate Heq;
      (split; [reflexivity | apply land_complement_same; assumption]).
Qed.

End ProductInformationRecords.

Section ProductInformationReplies.
Context `{Constants}.

Lemma applyRecords_app (pi : ProductInformation.t)
    (l1 l2 : list zcl.ReadAttributeResponseRecord) :
  applyRecords pi (l1 ++ l2) =
  match applyRecords pi l1 with
  | Returned pi1 => applyRecords pi1 l2
  | Panicked => Panicked
  end.
Proof.
  revert pi. induction l1 as [| x l1 IH]; intros pi; simpl; [reflexivity |].
  destruct (applyRecord pi x) as [pi1 |]; simpl; [apply IH | reflexivity].
Qed.

Lemma applyRecord_returns (pi : ProductInformation.t)
    (record : zcl.ReadAttributeResponseRecord) :
  carriesString record = true -> exists pi', applyRecord pi record = Returned pi'.
Proof.
  unfold carriesString, applyRecord. intros Hc.
  destruct (zcl.Identifier record =? 4) eqn:E4;
    [| destruct (zcl.Identifier record =? 5) eqn:E5];
    simpl in Hc;
    try (destruct (zcl.Status record =? 0); simpl in Hc;
         [destruct (stringValue record); [simpl; eauto | discriminate] | eauto]).
  eauto.
Qed.

Lemma applyRecords_returns (pi : ProductInformation.t)
    (records : list zcl.ReadAttributeResponseRecord) :
  forallb carriesString records = true ->
  exists pi', applyRecords pi records = Returned pi'.
Proof.
  revert pi. induction records as [| x rest IH]; intros pi Hall; simpl.
  - eauto.
  - simpl in Hall. apply andb_prop in Hall as [Hx Hrest].
    destruct (applyRecord_returns pi x Hx) as [pi1 ->]. simpl. apply IH, Hrest.
Qed.

(** A record for another attribute leaves a field and its bits alone. *)
Lemma applyRecord_keeps_manufacturer (Hfit : presentMasksFit)
    (pi pi' : ProductInformation.t) (record : zcl.ReadAttributeResponseRecord) :
  zcl.Identifier record <> 0x0004 -> applyRecord pi record = Returned pi' ->
  ProductInformation.Manufacturer pi' = ProductInformation.Manufacturer pi /\
  Z.land (ProductInformation.Present pi') Manufacturer =
  Z.land (ProductInformation.Present pi) Manufacturer.
Proof.
  destruct Hfit as [[Hb HM HN] Hd].
  intros Hne. unfold applyRecord.
  destruct (Z.eqb_spec (zcl.Identifier record) 4); [contradiction |].
  destruct (zcl.Identifier record =? 5).
  - destruct (zcl.Status record =? 0).
    + destruct (stringValue record); simpl; [| discriminate].
      intros [= <-]. simpl. split; [reflexivity |].
      apply land_lor_other. rewrite Z.land_comm. exact Hd.
    + intros [= <-]. simpl. split; [reflexivity |].
      apply land_complement_other; try assumption.
      rewrite Z.land_comm. exact Hd.
  - intros [= <-]. split; reflexivity.
Qed.

Lemma applyRecord_keeps_name (Hfit : presentMasksFit)
    (pi pi' : ProductInformation.t) (record : zcl.ReadAttributeResponseRecord) :
  zcl.Identifier record <> 0x0005 -> applyRecord pi record = Returned pi' ->
  ProductInformation.Name pi' = ProductInformation.Name pi /\
  Z.land (ProductInformation.Present pi') Name =
  Z.land (ProductInformation.Present pi) Name.
Proof.
  destruct Hfit as [[Hb HM HN] Hd].
  intros Hne. unfold applyRecord.
  destruct (zcl.Identifier record =? 4).
  - destruct (zcl.Status record =? 0).
    + destruct (stringValue record); simpl; [| discriminate].
      intros [= <-]. simpl. split; [reflexivity |].
      apply land_lor_other. exact Hd.
    + intros [= <-]. simpl. split; [reflexivity |].
      apply land_complement_other; assumption.
  - destruct (Z.eqb_spec (zcl.Identifier record) 5); [contradiction |].
    intros [= <-]. split; reflexivity.
Qed.

Lemma lastRecordFor_snoc (id : zcl.AttributeID)
    (records : list zcl.ReadAttributeResponseRecord)
    (record : zcl.ReadAttributeResponseRecord) :
  lastRecordFor id (records ++ [record]) =
  if zcl.Identifier record =? id then Some record else lastRecordFor id records.
Proof.
  unfold lastRecordFor. rewrite rev_app_distr. reflexivity.
Qed.

(** After a whole reply, the last record of an attribute decides its
    field. *)
Lemma applyRecords_last (Hfit : presentMasksFit) (id : zcl.AttributeID)
    (records : list zcl.ReadAttributeResponseRecord)
    (record : zcl.ReadAttributeResponseRecord) (pi pi' : ProductInformation.t) :
  id = 0x0004 \/ id = 0x0005 ->
  applyRecords pi records = Returned pi' ->
  lastRecordFor id records = Some record ->
  (forall s, zcl.Status record = 0 -> stringValue record = Returned s ->
     fieldStored id s pi') /\
  (zcl.Status record <> 0 -> fieldCleared id pi').
Proof.
  intros Hid. revert pi'.
  induction records as [| x rest IH] using rev_ind; intros pi' Happ Hlast.
  - discriminate Hlast.
  - rewrite applyRecords_app in Happ.
    destruct (applyRecords pi rest) as [pi1 |] eqn:Hrest; [| discriminate].
    simpl in Happ.
    destruct (applyRecord pi1 x) as [pi2 |] eqn:Hx; [| discriminate].
    simpl in Happ. injection Happ as <-.
    rewrite lastRecordFor_snoc in Hlast.
    destruct (Z.eqb_spec (zcl.Identifier x) id) as [Heq | Hne].
    + injection Hlast as <-. subst id.
      destruct (applyRecord_status (proj1 Hfit) pi1 x Hid) as [Hs Hc].
      split.
      * intros s Hst Hv. destruct (Hs s Hst Hv) as (pi3 & Heq3 & Hf).
        rewrite Hx in Heq3. injection Heq3 as <-. exact Hf.
      * intros Hst. destruct (Hc Hst) as (pi3 & Heq3 & Hf).
        rewrite Hx in Heq3. injection Heq3 as <-. exact Hf.
    + specialize (IH pi1 eq_refl Hlast). destruct IH as [IHs IHc].
      destruct Hid as [-> | ->].
      * destruct (applyRecord_keeps_manufacturer Hfit pi1 pi2 x Hne Hx) as [Hm Hp].
        split.
        -- intros s Hst Hv. destruct (IHs s Hst Hv) as [H4 _].
           destruct (H4 eq_refl) as [Hf Hb].
           split; intros Heq; [| discriminate Heq].
           split; [congruence |]. unfold presentSet in *. congruence.
        -- intros Hst. destruct (IHc Hst) as [H4 _].
           destruct (H4 eq_refl) as [Hf Hb].
           split; intros Heq; [| discriminate Heq].
           split; [congruence |]. unfold presentClear in *. congruence.
      * destruct (applyRecord_keeps_name Hfit pi1 pi2 x Hne Hx) as [Hm Hp].
        split.
        -- intros s Hst Hv. destruct (IHs s Hst Hv) as [_ H5].
           destruct (H5 eq_refl) as [Hf Hb].
           split; intros Heq; [discriminate Heq |].
           split; [congruence |]. unfold presentSet in *. congruence.
        -- intros Hst. destruct (IHc Hst) as [_ H5].
           destruct (H5 eq_refl) as [Hf Hb].
           split; intros Heq; [discriminate Heq |].
           split; [congruence |]. unfold presentClear in *. congruence.
Qed.
End ProductInformationReplies.

Section CallbackProperties.
Context `{Constants} {C : Type} `{zclGlobalCommunicator C}.

Lemma sameNodeData_refl (n : internalNode) : sameNodeData n n.
Proof. unfold sameNodeData. auto. Qed.

Lemma sameNodeData_trans (n1 n2 n3 : internalNode) :
  sameNodeData n1 n2 -> sameNodeData n2 n3 -> sameNodeData n1 n3.
Proof.
  unfold sameNodeData. intros (?&?&?&?&?) (?&?&?&?&?).
  repeat split; congruence.
Qed.

Lemma findBasicEndpoint_same (n n' : internalNode) (iDev : internalDevice) :
  sameNodeData n n' -> findBasicEndpoint n' iDev = findBasicEndpoint n iDev.
Proof.
  intros (_ & _ & Hd & _). unfold findBasicEndpoint, endpointDescription.
  rewrite Hd. reflexivity.
Qed.

Lemma informationRead_refl (pi : ProductInformation.t) : informationRead pi pi.
Proof. left. reflexivity. Qed.

(** One attempt returns; the product information is either untouched,
    with an error, or the reply applied, without one. *)
Lemma readProductInformation_spec (Hrep : repliesCarryStrings) (foundEndpoint : zigbee.Endpoint)
    (st : attemptState) :
  exists st' err,
    readProductInformation foundEndpoint st = Returned (st', err) /\
    sameNodeData (asNode st) (asNode st') /\
    ((exists e, err = Some e /\ asInformation st' = asInformation st) \/
     (err = None /\ informationRead (asInformation st) (asInformation st'))).
Proof.
  unfold readProductInformation.
  set (req := {| reqAddress := ieeeAddress (asNode st);
                 reqRequireAck := supportsAPSAck (asNode st);
                 reqCluster := zcl.BasicId; reqManufacturer := 0;
                 reqSourceEndpoint := DefaultGatewayHomeAutomationEndpoint;
                 reqDestEndpoint := foundEndpoint;
                 reqTransactionSequence :=
                   fst (nextTransactionSequence (asNode st));
                 reqAttributes := [4; 5] |}).
  pose proof (Hrep (asCommunicator st) req) as Hstr.
  destruct (snd (snd (ReadAttributes (asCommunicator st) req))) as [e |] eqn:Herr.
  - eexists _, _. split; [reflexivity |].
    split; [unfold sameNodeData; simpl; auto |].
    left. exists e. split; reflexivity.
  - specialize (Hstr eq_refl).
    destruct (applyRecords_returns (asInformation st) _ Hstr) as [pi' Hpi].
    rewrite Hpi. simpl.
    eexists _, _. split; [reflexivity |].
    split; [unfold sameNodeData; simpl; auto |].
    right. split; [reflexivity |]. simpl.
    right. exists (asCommunicator st), req, (fst (snd (ReadAttributes (asCommunicator st) req))).
    split; [reflexivity |]. split; [assumption |]. split; [reflexivity |].
    assumption.
Qed.

(** The retried read returns, whatever the communicator answers. *)
Lemma Retry_readProductInformation (Hrep : repliesCarryStrings) (foundEndpoint : zigbee.Endpoint)
    (retries : nat) (st : attemptState) (err0 : option error) :
  exists st' err,
    Retry retries (readProductInformation foundEndpoint) st err0 = Returned (st', err) /\
    sameNodeData (asNode st) (asNode st') /\
    informationRead (asInformation st) (asInformation st').
Proof.
  revert st err0. induction retries as [| n IH]; intros st err0; simpl.
  - exists st, err0. split; [reflexivity |].
    split; [apply sameNodeData_refl | apply informationRead_refl].
  - destruct (readProductInformation_spec Hrep foundEndpoint st)
      as (st1 & err1 & -> & Hsame & Hcase). simpl.
    destruct Hcase as [(e & -> & Hinfo) | (-> & Hread)].
    + destruct (IH st1 (Some e)) as (st' & err & -> & Hsame' & Hread').
      exists st', err. split; [reflexivity |].
      split; [eapply sameNodeData_trans; eassumption |].
      rewrite <- Hinfo. exact Hread'.
    + exists st1, None. split; [reflexivity |]. split; assumption.
Qed.

Lemma addCapability_has (d : da.Device) (c : da.Capability) :
  hasCapability c (addCapability d c).
Proof.
  unfold hasCapability, addCapability.
  destruct (existsb (Z.eqb c) (da.Capabilities d)) eqn:E.
  - apply existsb_exists in E as (x & Hin & Heq).
    apply Z.eqb_eq in Heq. subst x. exact Hin.
  - simpl. apply in_or_app. right. left. reflexivity.
Qed.



(** The body of the loop returns for every device. *)
Lemma enumerateDevice_spec (Hrep : repliesCarryStrings)
    (st : callbackState) (iDev : internalDevice) :
  exists st' iDev',
    enumerateDevice st iDev = Returned (st', iDev') /\
    sameNodeData (csNode st) (csNode st') /\
    enumerated informationRead (csNode st) iDev iDev'.
Proof.
  unfold enumerateDevice, enumerated.
  destruct (findBasicEndpoint (csNode st) iDev) as [ep |].
  - destruct (Retry_readProductInformation Hrep ep DefaultNetworkRetries
                {| asCommunicator := csCommunicator st; asNode := csNode st;
                   asInformation := productInformation iDev |} None)
      as (st1 & err & -> & Hsame & Hread).
    simpl in *. eexists _, _. split; [reflexivity |]. simpl.
    split; [exact Hsame |]. split; [reflexivity |].
    split; [apply addCapability_has | exact Hread].
  - exists st, iDev. split; [reflexivity |].
    split; [apply sameNodeData_refl |]. split; reflexivity.
Qed.

Lemma enumerated_same (read : ProductInformation.t -> ProductInformation.t -> Prop)
    (n n' : internalNode) (iDev iDev' : internalDevice) :
  sameNodeData n n' -> enumerated read n' iDev iDev' -> enumerated read n iDev iDev'.
Proof.
  intros Hsame. unfold enumerated.
  rewrite (findBasicEndpoint_same n n' iDev Hsame). auto.
Qed.

Lemma enumerateDevices_spec (Hrep : repliesCarryStrings)
    (st : callbackState) (iDevs : list internalDevice) :
  exists st' iDevs',
    enumerateDevices st iDevs = Returned (st', iDevs') /\
    sameNodeData (csNode st) (csNode st') /\
    Forall2 (enumerated informationRead (csNode st)) iDevs iDevs'.
Proof.
  revert st. induction iDevs as [| iDev rest IH]; intros st; simpl.
  - exists st, []. split; [reflexivity |].
    split; [apply sameNodeData_refl | constructor].
  - destruct (enumerateDevice_spec Hrep st iDev) as (st1 & iDev' & -> & Hs1 & He1).
    simpl.
    destruct (IH st1) as (st2 & rest' & -> & Hs2 & He2). simpl.
    exists st2, (iDev' :: rest'). split; [reflexivity |].
    split; [eapply sameNodeData_trans; eassumption |].
    constructor; [exact He1 |].
    eapply Forall2_impl; [exact He2 |].
    intros x y Hxy. eapply enumerated_same; eassumption.
Qed.

(** The callback returns [nil] when the answered reads carry strings. *)
Lemma NodeEnumerationCallback_spec (Hrep : repliesCarryStrings)
    (c : C) (log : list string) (iNode : internalNode) :
  exists st,
    NodeEnumerationCallback c log iNode = Returned (st, None) /\
    Forall2 (enumerated informationRead iNode) (devices iNode) (devices (csNode st)).
Proof.
  unfold NodeEnumerationCallback.
  destruct (enumerateDevices_spec Hrep
              {| csCommunicator := c; csNode := iNode; csLog := log |}
              (devices iNode)) as (st1 & devs & -> & Hsame & Hall).
  simpl. eexists. split; [reflexivity |]. exact Hall.
Qed.

(** Whatever the callback returns, the error is [nil]. *)
Lemma NodeEnumerationCallback_error (c : C) (log : list string)
    (iNode : internalNode) (st : callbackState) (err : option error) :
  NodeEnumerationCallback c log iNode = Returned (st, err) -> err = None.
Proof.
  unfold NodeEnumerationCallback.
  destruct (enumerateDevices _ _) as [r |]; simpl; [| discriminate].
  intros [= _ <-]. reflexivity.
Qed.
End CallbackProperties.

(** ** The provider handler *)

Section ProviderHandler.

Lemma removeDevice_trace (id : da.Identifier) (z : zgw.t) :
  zgw.trace (removeDevice id z) = zgw.trace z ++ [RemovedDevice id].
Proof. unfold removeDevice. destruct (zgw.devices z !! id); reflexivity. Qed.

Lemma removeDevice_devices (id : da.Identifier) (z : zgw.t) :
  zgw.devices (removeDevice id z) = delete id (zgw.devices z).
Proof.
  unfold removeDevice. destruct (zgw.devices z !! id) eqn:E; simpl.
  - reflexivity.
  - symmetry. apply delete_id. exact E.
Qed.

(** The loop of the leave case over the devices of the node. *)
Lemma removeDevices_trace (iDevs : list internalDevice) (z : zgw.t) :
  zgw.trace (fold_left (fun z' iDev => removeDevice (da.Identifier_ (device iDev)) z')
               iDevs z) =
  zgw.trace z ++ map (fun iDev => RemovedDevice (da.Identifier_ (device iDev))) iDevs.
Proof.
  revert z. induction iDevs as [| iDev rest IH]; intros z; simpl.
  - rewrite app_nil_r. reflexivity.
  - rewrite IH, removeDevice_trace, <- app_assoc. reflexivity.
Qed.

Lemma removeDevices_keeps_unregistered (iDevs : list internalDevice) (z : zgw.t)
    (id : da.Identifier) :
  zgw.devices z !! id = None ->
  zgw.devices (fold_left (fun z' iDev => removeDevice (da.Identifier_ (device iDev)) z')
                 iDevs z) !! id = None.
Proof.
  revert z. induction iDevs as [| iDev rest IH]; intros z Hz; simpl; [exact Hz |].
  apply IH. rewrite removeDevice_devices.
  apply lookup_delete_None. right. exact Hz.
Qed.

Lemma removeDevices_unregisters (iDevs : list internalDevice) (z : zgw.t)
    (id : da.Identifier) :
  In id (map (fun iDev => da.Identifier_ (device iDev)) iDevs) ->
  zgw.devices (fold_left (fun z' iDev => removeDevice (da.Identifier_ (device iDev)) z')
                 iDevs z) !! id = None.
Proof.
  revert z. induction iDevs as [| iDev rest IH]; intros z Hin; simpl in *.
  - contradiction.
  - destruct (decide (da.Identifier_ (device iDev) = id)) as [Heq | Hne].
    + apply removeDevices_keeps_unregistered.
      rewrite removeDevice_devices, Heq. apply lookup_delete_eq.
    + destruct Hin as [Heq | Hin]; [contradiction |]. apply IH, Hin.
Qed.

Lemma handleNodeJoin_known (ieee : zigbee.IEEEAddress) (z : zgw.t)
    (iNode : internalNode) :
  getNode ieee z = Some iNode -> getDevices iNode <> [] ->
  handleNodeJoin ieee z = z.
Proof.
  intros Hn Hd. unfold handleNodeJoin. rewrite Hn. simpl.
  destruct (getDevices iNode); [contradiction | reflexivity].
Qed.

(** What the join case does for a node without devices. *)
Lemma handleNodeJoin_allocates (ieee : zigbee.IEEEAddress) (z : zgw.t) :
  let prior := match getNode ieee z with
               | Some iNode => (iNode, [])
               | None => (newNode ieee, [AddedNode ieee])
               end in
  let id := fst (nextDeviceIdentifier (fst prior)) in
  getDevices (fst prior) = [] ->
  getNode ieee (handleNodeJoin ieee z) =
    Some (withDevices (snd (nextDeviceIdentifier (fst prior))) [newDevice id]) /\
  zgw.devices (handleNodeJoin ieee z) = <[id := ieee]> (zgw.devices z) /\
  zgw.trace (handleNodeJoin ieee z) =
    zgw.trace z ++ snd prior ++ [AddedDevice id; Called (internalNodeJoin ieee)].
Proof.
  unfold handleNodeJoin, getNode. simpl.
  destruct (zgw.nodes z !! ieee) as [iNode |] eqn:Hn; simpl; intros Hd.
  - unfold getDevices in *. rewrite Hd. simpl.
    rewrite lookup_alter_eq, lookup_insert_eq. simpl.
    repeat split. rewrite <- app_assoc. reflexivity.
  - rewrite lookup_alter_eq, lookup_insert_eq. simpl.
    repeat split. rewrite <- !app_assoc. reflexivity.
Qed.

Lemma handleNodeJoin_has_device (ieee : zigbee.IEEEAddress) (z : zgw.t) :
  exists iNode,
    getNode ieee (handleNodeJoin ieee z) = Some iNode /\ getDevices iNode <> [].
Proof.
  destruct (getNode ieee z) as [iNode |] eqn:Hn.
  - destruct (getDevices iNode) as [| d ds] eqn:Hd.
    + pose proof (handleNodeJoin_allocates ieee z) as Ha.
      rewrite Hn in Ha. simpl in Ha. destruct (Ha Hd) as (Hg & _).
      eexists. split; [exact Hg |]. discriminate.
    + exists iNode. rewrite (handleNodeJoin_known ieee z iNode Hn); [| congruence].
      split; [exact Hn | congruence].
  - pose proof (handleNodeJoin_allocates ieee z) as Ha.
    rewrite Hn in Ha. simpl in Ha. destruct (Ha eq_refl) as (Hg & _).
    eexists. split; [exact Hg |]. discriminate.
Qed.

(** C3. Handling a NodeJoinEvent is idempotent in what it creates: for a
    node that exists and has a device, the event adds no device and
    publishes no internal NodeJoin (the gateway is left as it was); the
    initial device is allocated and NodeJoin published when the node is
    new or its device list is empty, after which the node has exactly
    that device; so delivering the event again changes nothing. *)
Theorem NodeJoinEvent_idempotent (ieee : zigbee.IEEEAddress) (z : zgw.t) :
  (forall iNode, getNode ieee z = Some iNode -> getDevices iNode <> [] ->
     dispatch (zigbee.NodeJoinEvent ieee) z = z) /\
  (forall iNode, getNode ieee z = Some iNode -> getDevices iNode = [] ->
     let id := fst (nextDeviceIdentifier iNode) in
     let z' := dispatch (zigbee.NodeJoinEvent ieee) z in
     (exists iNode', getNode ieee z' = Some iNode' /\ getDevices iNode' = [newDevice id]) /\
     zgw.devices z' = <[id := ieee]> (zgw.devices z) /\
     zgw.trace z' = zgw.trace z ++ [AddedDevice id; Called (internalNodeJoin ieee)]) /\
  (getNode ieee z = None ->
     let id := da.IEEEAddressWithSubIdentifier ieee 0 in
     let z' := dispatch (zigbee.NodeJoinEvent ieee) z in
     (exists iNode', getNode ieee z' = Some iNode' /\ getDevices iNode' = [newDevice id]) /\
     zgw.devices z' = <[id := ieee]> (zgw.devices z) /\
     zgw.trace z' =
       zgw.trace z ++ [AddedNode ieee; AddedDevice id; Called (internalNodeJoin ieee)]) /\
  dispatch (zigbee.NodeJoinEvent ieee) (dispatch (zigbee.NodeJoinEvent ieee) z) =
  dispatch (zigbee.NodeJoinEvent ieee) z.
Proof.
  simpl. split; [| split; [| split]].
  - intros iNode Hn Hd. exact (handleNodeJoin_known ieee z iNode Hn Hd).
  - intros iNode Hn Hd.
    pose proof (handleNodeJoin_allocates ieee z) as Ha.
    rewrite Hn in Ha. simpl in Ha. destruct (Ha Hd) as (Hg & Hm & Ht).
    split; [| split; assumption]. eexists. split; [exact Hg | reflexivity].
  - intros Hn.
    pose proof (handleNodeJoin_allocates ieee z) as Ha.
    rewrite Hn in Ha. simpl in Ha. destruct (Ha eq_refl) as (Hg & Hm & Ht).
    split; [| split; assumption]. eexists. split; [exact Hg | reflexivity].
  - destruct (handleNodeJoin_has_device ieee z) as (iNode & Hn & Hd).
    exact (handleNodeJoin_known ieee _ iNode Hn Hd).
Qed.

(** C4. For a NodeLeaveEvent of a known node the provider handler, in
    this order, publishes the internal NodeLeave event, removes every
    child device of the node from the device store and then removes the
    node itself; afterwards the node and the identifiers of its devices
    are gone from the store.  For an unknown address nothing is published
    and the store is not touched. *)
Theorem NodeLeaveEvent_order (ieee : zigbee.IEEEAddress) (z : zgw.t) :
  (forall iNode, getNode ieee z = Some iNode ->
     let z' := dispatch (zigbee.NodeLeaveEvent ieee) z in
     zgw.trace z' =
       zgw.trace z ++ [Called (internalNodeLeave ieee)]
         ++ map RemovedDevice (deviceIdentifiers iNode)
         ++ [RemovedNode ieee] /\
     getNode ieee z' = None /\
     (forall id, In id (deviceIdentifiers iNode) ->
        zgw.devices z' !! id = None /\ getDevice id z' = None)) /\
  (getNode ieee z = None -> dispatch (zigbee.NodeLeaveEvent ieee) z = z).
Proof.
  simpl. unfold handleNodeLeave. split.
  - intros iNode Hn. rewrite Hn. split; [| split].
    + simpl. rewrite removeDevices_trace. simpl.
      unfold deviceIdentifiers. rewrite map_map, <- !app_assoc. reflexivity.
    + unfold getNode. simpl. apply lookup_delete_eq.
    + intros id Hin.
      pose proof (removeDevices_unregisters (getDevices iNode)
                    (Call (internalNodeLeave ieee) z) id Hin) as Hd.
      split; [exact Hd |]. unfold getDevice. simpl. rewrite Hd. reflexivity.
  - intros Hn. rewrite Hn. reflexivity.
Qed.
End ProviderHandler.

(** ** The façade: devices, events, capabilities, Self *)

Section Facade.
Context `{Constants}.

Lemma fold_left_snoc {A B : Type} (f : A -> B) (l : list A) (acc : list B) :
  fold_left (fun acc' x => acc' ++ [f x]) l acc = acc ++ map f l.
Proof.
  revert acc. induction l as [| x l IH]; intros acc; simpl.
  - rewrite app_nil_r. reflexivity.
  - rewrite IH, <- app_assoc. reflexivity.
Qed.

Lemma Devices_nodes (ns : list internalNode) (acc : list da.Device) :
  fold_left
    (fun devs node => fold_left (fun devs' iDev => devs' ++ [device iDev]) (devices node) devs)
    ns acc =
  acc ++ concat (map (fun node => map device (devices node)) ns).
Proof.
  revert acc. induction ns as [| n ns IH]; intros acc; simpl.
  - rewrite app_nil_r. reflexivity.
  - rewrite IH, fold_left_snoc, <- app_assoc. reflexivity.
Qed.






Lemma registeredCapabilities_other (flag : da.Capability) :
  flag <> DeviceDiscoveryFlag -> flag <> EnumerateDeviceFlag ->
  flag <> LocalDebugFlag -> flag <> HasProductInformationFlag ->
  flag <> OnOffFlag ->
  registeredCapabilities !! flag = None.
Proof.
  intros H1 H2 H3 H4 H5. unfold registeredCapabilities.
  rewrite !lookup_insert_ne by congruence. apply lookup_empty.
Qed.

Lemma Start_capabilities (z : zgw.t) :
  zgw.capabilities (fst (Start z)) = zgw.capabilities z.
Proof.
  unfold Start. destruct (RegisterAdapterEndpoint (zgw.provider z)); reflexivity.
Qed.

(** C8. For a flag other than the five registered at construction,
    [Capability] returns [nil]; the call has no error result, so the
    [nil] is the only sign that the capability is absent.  [Start] does
    not change the answer. *)
Theorem Capability_unregistered (provider : Provider) (flag : da.Capability) :
  flag <> DeviceDiscoveryFlag -> flag <> EnumerateDeviceFlag ->
  flag <> LocalDebugFlag -> flag <> HasProductInformationFlag ->
  flag <> OnOffFlag ->
  Capability flag (New provider) = None /\
  Capability flag (fst (Start (New provider))) = None.
Proof.
  intros H1 H2 H3 H4 H5. unfold Capability.
  rewrite Start_capabilities. simpl.
  split; apply registeredCapabilities_other; assumption.
Qed.

Lemma removeDevice_self (id : da.Identifier) (z : zgw.t) :
  zgw.self (removeDevice id z) = zgw.self z.
Proof. unfold removeDevice. destruct (zgw.devices z !! id); reflexivity. Qed.

Lemma removeDevices_self (iDevs : list internalDevice) (z : zgw.t) :
  zgw.self (fold_left (fun z' iDev => removeDevice (da.Identifier_ (device iDev)) z')
              iDevs z) = zgw.self z.
Proof.
  revert z. induction iDevs as [| iDev rest IH]; intros z; simpl; [reflexivity |].
  rewrite IH. apply removeDevice_self.
Qed.

Lemma dispatch_self (event : zigbee.Event) (z : zgw.t) :
  zgw.self (dispatch event z) = zgw.self z.
Proof.
  destruct event as [ieee | ieee | ieee payload |]; simpl; try reflexivity.
  - unfold handleNodeJoin.
    destruct (getNode ieee z) as [iNode |]; simpl; [| reflexivity].
    destruct (getDevices iNode); reflexivity.
  - unfold handleNodeLeave. destruct (getNode ieee z) as [iNode |]; [| reflexivity].
    simpl. rewrite removeDevices_self. reflexivity.
Qed.

Lemma gatewayOp_self (op : GatewayOp) (z : zgw.t) :
  zgw.self (gatewayOp z op) = zgw.self z.
Proof.
  destruct op as [event | event | done |]; simpl.
  - apply dispatch_self.
  - unfold sendEvent. destruct (_ <? _)%nat; reflexivity.
  - unfold ReadEvent. destruct (zgw.events z), done; reflexivity.
  - reflexivity.
Qed.

Lemma gatewayOps_self (ops : list GatewayOp) (z : zgw.t) :
  zgw.self (fold_left gatewayOp ops z) = zgw.self z.
Proof.
  revert z. induction ops as [| op ops IH]; intros z; simpl; [reflexivity |].
  rewrite IH. apply gatewayOp_self.
Qed.

(** C10. The Self device is filled in by [Start] only.  After
    construction, and after any handling of provider events, sending and
    reading of events and [Stop], [Self] is the zero [Device]: no gateway,
    no identifier, no capabilities.  After [Start], whether or not the
    registration of the adapter endpoint succeeds, its identifier is the
    IEEE address of the provider's adapter node and its capability list
    is exactly [DeviceDiscoveryFlag]; the operations above then keep it. *)
Theorem Self_populated_by_Start :
  (forall provider ops,
     Self (fold_left gatewayOp ops (New provider)) = da.zeroDevice) /\
  (forall z,
     Self (fst (Start z)) =
       {| da.Gateway := Some da.ZigbeeGatewayRef;
          da.Identifier_ := da.IEEEAddress (AdapterNodeIEEEAddress (zgw.provider z));
          da.Capabilities := [DeviceDiscoveryFlag] |}) /\
  (forall z ops,
     Self (fold_left gatewayOp ops (fst (Start z))) = Self (fst (Start z))).
Proof.
  split; [| split].
  - intros provider ops. unfold Self. rewrite gatewayOps_self. reflexivity.
  - intros z. unfold Self, Start.
    destruct (RegisterAdapterEndpoint (zgw.provider z)); reflexivity.
  - intros z ops. unfold Self. rewrite gatewayOps_self. reflexivity.
Qed.
End Facade.

(** ** Read failures in the enumeration callback *)

Section ReadFailures.
Context `{Constants} {C : Type} `{zclGlobalCommunicator C}.

Lemma alwaysFails_carry : alwaysFails -> repliesCarryStrings.
Proof. intros Hf c req Hnone. destruct (Hf c req Hnone). Qed.

Lemma readProductInformation_fails (Hf : alwaysFails)
    (foundEndpoint : zigbee.Endpoint) (st : attemptState) :
  exists st' e,
    readProductInformation foundEndpoint st = Returned (st', Some e) /\
    sameNodeData (asNode st) (asNode st') /\
    asInformation st' = asInformation st.
Proof.
  destruct (readProductInformation_spec (alwaysFails_carry Hf) foundEndpoint st)
    as (st' & err & Heq & Hsame & Hcase).
  destruct Hcase as [(e & -> & Hinfo) | (-> & _)].
  - exists st', e. auto.
  - exfalso. revert Heq. unfold readProductInformation.
    match goal with
    | |- context [ReadAttributes ?c ?r] => pose proof (Hf c r) as Hne
    end.
    destruct (snd (snd (ReadAttributes _ _))); [discriminate | congruence].
Qed.

(** With every attempt failing, the retried read ends with an error and
    leaves the product information as it was. *)
Lemma Retry_fails (Hf : alwaysFails) (foundEndpoint : zigbee.Endpoint)
    (retries : nat) (st : attemptState) (err0 : option error) :
  (0 < retries)%nat \/ err0 <> None ->
  exists st' e,
    Retry retries (readProductInformation foundEndpoint) st err0 = Returned (st', Some e) /\
    sameNodeData (asNode st) (asNode st') /\
    asInformation st' = asInformation st.
Proof.
  revert st err0. induction retries as [| n IH]; intros st err0 Hpos; simpl.
  - destruct Hpos as [Hlt | Hne]; [lia |].
    destruct err0 as [e |]; [| congruence].
    exists st, e. split; [reflexivity |]. split; [apply sameNodeData_refl | reflexivity].
  - destruct (readProductInformation_fails Hf foundEndpoint st)
      as (st1 & e1 & -> & Hsame & Hinfo). simpl.
    destruct (IH st1 (Some e1)) as (st' & e & -> & Hsame' & Hinfo');
      [right; discriminate |].
    exists st', e. split; [reflexivity |].
    split; [eapply sameNodeData_trans; eassumption | congruence].
Qed.

Lemma enumerateDevices_fail (Hf : alwaysFails) (Hretries : (0 < DefaultNetworkRetries)%nat)
    (st : callbackState) (iDevs : list internalDevice) :
  exists st' iDevs' lines,
    enumerateDevices st iDevs = Returned (st', iDevs') /\
    sameNodeData (csNode st) (csNode st') /\
    csLog st' = csLog st ++ lines /\
    length lines = length (basicDevices (csNode st) iDevs) /\
    map productInformation iDevs' = map productInformation iDevs.
Proof.
  revert st. induction iDevs as [| iDev rest IH]; intros st; simpl.
  - exists st, [], []. rewrite app_nil_r.
    split; [reflexivity |]. split; [apply sameNodeData_refl |].
    repeat split; reflexivity.
  - unfold enumerateDevice.
    destruct (findBasicEndpoint (csNode st) iDev) as [ep |] eqn:Hep.
    + destruct (Retry_fails Hf ep DefaultNetworkRetries
                  {| asCommunicator := csCommunicator st; asNode := csNode st;
                     asInformation := productInformation iDev |} None (or_introl Hretries))
        as (st1 & e & -> & Hs1 & Hi1).
      simpl in *.
      match goal with
      | |- context [enumerateDevices ?s rest] => destruct (IH s) as (st2 & rest' & lines & -> & Hs2 & Hl2 & Hn2 & Hp2)
      end.
      simpl in *. eexists _, _, (_ :: lines). split; [reflexivity |]. simpl.
      split; [eapply sameNodeData_trans; eassumption |].
      split; [rewrite Hl2, <- app_assoc; reflexivity |].
      split.
      * f_equal. rewrite Hn2.
        unfold basicDevices. f_equal. apply filter_ext. intros d.
        rewrite (findBasicEndpoint_same (csNode st) (asNode st1) d Hs1). reflexivity.
      * rewrite Hi1, Hp2. reflexivity.
    + simpl.
      destruct (IH st) as (st2 & rest' & lines & -> & Hs2 & Hl2 & Hn2 & Hp2).
      simpl. exists st2, (iDev :: rest'), lines. split; [reflexivity |].
      split; [exact Hs2 |]. split; [exact Hl2 |]. split.
      * exact Hn2.
      * simpl. rewrite Hp2. reflexivity.
Qed.
End ReadFailures.

Section EnumerationClaims.
Context `{Constants} {C : Type} `{zclGlobalCommunicator C}.


(** C9, as the code has it. The callback never returns an error.  It
    returns [nil] for every input in which the records of the answered
    reads carry strings for the attributes it stores; a failed read is
    logged and not returned: when no attempt is answered, one line is
    logged for each device with a Basic endpoint and the product
    information is left as it was. *)
Theorem NodeEnumerationCallback_returns_nil :
  (forall c log iNode st err,
     NodeEnumerationCallback c log iNode = Returned (st, err) -> err = None) /\
  (repliesCarryStrings ->
   forall c log iNode,
     exists st, NodeEnumerationCallback c log iNode = Returned (st, None)) /\
  (alwaysFails -> (0 < DefaultNetworkRetries)%nat ->
   forall c log iNode,
     exists st lines,
       NodeEnumerationCallback c log iNode = Returned (st, None) /\
       csLog st = log ++ lines /\
       length lines = length (basicDevices iNode (devices iNode)) /\
       map productInformation (devices (csNode st)) =
       map productInformation (devices iNode)).
Proof.
  split; [| split].
  - intros c log iNode st err. apply NodeEnumerationCallback_error.
  - intros Hrep c log iNode.
    destruct (NodeEnumerationCallback_spec Hrep c log iNode) as (st & Heq & _).
    exists st. exact Heq.
  - intros Hf Hretries c log iNode. unfold NodeEnumerationCallback.
    destruct (enumerateDevices_fail Hf Hretries
                {| csCommunicator := c; csNode := iNode; csLog := log |}
                (devices iNode))
      as (st1 & devs & lines & -> & Hsame & Hlog & Hlen & Hinfo).
    simpl in *. eexists _, lines. split; [reflexivity |]. simpl.
    split; [exact Hlog |]. split; [exact Hlen | exact Hinfo].
Qed.
End EnumerationClaims.

(** ** Device discovery *)

(** C6. When the provider's permit-join or deny-join call fails, an allow
    or deny on the Self device leaves the discovery state (the discovering
    flag and the expiry) and the gateway as they were and returns the
    provider's error itself. *)
Theorem DeviceDiscovery_provider_error (now duration : Z) (err : error)
    (zdd : ZigbeeDeviceDiscovery.t) (z : zgw.t) :
  ZigbeeDeviceDiscovery.Allow now duration (Self z) (Some err) zdd z = ((zdd, z), Some err) /\
  ZigbeeDeviceDiscovery.Deny (Self z) (Some err) zdd z = ((zdd, z), Some err).
Proof.
  unfold ZigbeeDeviceDiscovery.Allow, ZigbeeDeviceDiscovery.Deny,
    ZigbeeDeviceDiscovery.isSelf.
  rewrite bool_decide_eq_true_2 by reflexivity. split; reflexivity.
Qed.

(** ** Replies and endpoints *)

Section ReplyProperties.
Context `{Constants}.

Lemma lastRecordFor_none (id : zcl.AttributeID)
    (records : list zcl.ReadAttributeResponseRecord) :
  lastRecordFor id records = None ->
  Forall (fun record => zcl.Identifier record <> id) records.
Proof.
  unfold lastRecordFor. intros Hnone. apply Forall_forall. intros record Hin Heq.
  apply list_elem_of_In, in_rev in Hin.
  pose proof (find_none _ _ Hnone record Hin) as Hf. simpl in Hf.
  apply Z.eqb_neq in Hf. contradiction.
Qed.

Lemma applyRecords_keeps_manufacturer (Hfit : presentMasksFit)
    (records : list zcl.ReadAttributeResponseRecord) (pi pi' : ProductInformation.t) :
  Forall (fun record => zcl.Identifier record <> 0x0004) records ->
  applyRecords pi records = Returned pi' ->
  ProductInformation.Manufacturer pi' = ProductInformation.Manufacturer pi /\
  Z.land (ProductInformation.Present pi') Manufacturer =
  Z.land (ProductInformation.Present pi) Manufacturer.
Proof.
  intros Hall. revert pi. induction Hall as [| x rest Hx Hrest IH]; intros pi; simpl.
  - intros [= <-]. split; reflexivity.
  - destruct (applyRecord pi x) as [pi1 |] eqn:Hpi1; simpl; [| discriminate].
    intros Happ. destruct (IH pi1 Happ) as [Hm Hp].
    destruct (applyRecord_keeps_manufacturer Hfit pi pi1 x Hx Hpi1) as [Hm1 Hp1].
    split; congruence.
Qed.

Lemma applyRecords_keeps_name (Hfit : presentMasksFit)
    (records : list zcl.ReadAttributeResponseRecord) (pi pi' : ProductInformation.t) :
  Forall (fun record => zcl.Identifier record <> 0x0005) records ->
  applyRecords pi records = Returned pi' ->
  ProductInformation.Name pi' = ProductInformation.Name pi /\
  Z.land (ProductInformation.Present pi') Name =
  Z.land (ProductInformation.Present pi) Name.
Proof.
  intros Hall. revert pi. induction Hall as [| x rest Hx Hrest IH]; intros pi; simpl.
  - intros [= <-]. split; reflexivity.
  - destruct (applyRecord pi x) as [pi1 |] eqn:Hpi1; simpl; [| discriminate].
    intros Happ. destruct (IH pi1 Happ) as [Hm Hp].
    destruct (applyRecord_keeps_name Hfit pi pi1 x Hx Hpi1) as [Hm1 Hp1].
    split; congruence.
Qed.

(** X1. In an answered reply the last record of attribute 0x0004 or 0x0005
    decides its field, whatever records come before or after it: with
    status 0 its string is stored and the present bit set, with a non-zero
    status the field is empty and the bit clear. *)
Theorem applyRecords_last_record_decides (Hfit : presentMasksFit)
    (id : zcl.AttributeID) (records : list zcl.ReadAttributeResponseRecord)
    (record : zcl.ReadAttributeResponseRecord) (pi pi' : ProductInformation.t) :
  id = 0x0004 \/ id = 0x0005 ->
  applyRecords pi records = Returned pi' ->
  lastRecordFor id records = Some record ->
  (forall s, zcl.Status record = 0 -> stringValue record = Returned s ->
     fieldStored id s pi') /\
  (zcl.Status record <> 0 -> fieldCleared id pi').
Proof. exact (applyRecords_last Hfit id records record pi pi'). Qed.

(** X2. An attribute that has no record in an answered reply keeps its
    field and its present bits: a reply about the model name alone leaves
    the manufacturer as it was, and the other way round; records of other
    attributes change nothing of either. *)
Theorem applyRecords_absent_attribute_kept (Hfit : presentMasksFit)
    (records : list zcl.ReadAttributeResponseRecord) (pi pi' : ProductInformation.t) :
  applyRecords pi records = Returned pi' ->
  (lastRecordFor 0x0004 records = None ->
     ProductInformation.Manufacturer pi' = ProductInformation.Manufacturer pi /\
     Z.land (ProductInformation.Present pi') Manufacturer =
     Z.land (ProductInformation.Present pi) Manufacturer) /\
  (lastRecordFor 0x0005 records = None ->
     ProductInformation.Name pi' = ProductInformation.Name pi /\
     Z.land (ProductInformation.Present pi') Name =
     Z.land (ProductInformation.Present pi) Name).
Proof.
  intros Happ. split; intros Hnone.
  - exact (applyRecords_keeps_manufacturer Hfit records pi pi'
             (lastRecordFor_none _ _ Hnone) Happ).
  - exact (applyRecords_keeps_name Hfit records pi pi'
             (lastRecordFor_none _ _ Hnone) Happ).
Qed.

Lemma applyRecord_panics (pi : ProductInformation.t)
    (record : zcl.ReadAttributeResponseRecord) :
  carriesString record = false -> applyRecord pi record = Panicked.
Proof.
  unfold carriesString, applyRecord.
  destruct (zcl.Identifier record =? 4) eqn:E4;
    [| destruct (zcl.Identifier record =? 5) eqn:E5]; simpl;
    try (destruct (zcl.Status record =? 0); simpl;
         [destruct (stringValue record); [discriminate | reflexivity] | discriminate]).
  discriminate.
Qed.

(** X3. Applying a reply panics exactly when it holds a record of
    attribute 0x0004 or 0x0005 with status 0 whose value is not a string
    (or whose value pointer is nil); records with a non-zero status and
    records of other attributes are never looked into. *)
Theorem applyRecords_panics_iff (pi : ProductInformation.t)
    (records : list zcl.ReadAttributeResponseRecord) :
  applyRecords pi records = Panicked <-> forallb carriesString records = false.
Proof.
  split.
  - intros Hp. destruct (forallb carriesString records) eqn:Hall; [| reflexivity].
    destruct (applyRecords_returns pi records Hall) as [pi' Hr]. congruence.
  - revert pi. induction records as [| x rest IH]; intros pi Hall; simpl in *.
    + discriminate.
    + destruct (carriesString x) eqn:Hx; simpl in Hall.
      * destruct (applyRecord_returns pi x Hx) as [pi1 ->]. simpl. apply IH, Hall.
      * rewrite (applyRecord_panics pi x Hx). reflexivity.
Qed.

Lemma find_first {A : Type} (f : A -> bool) (l : list A) :
  match find f l with
  | Some x => exists before after,
      l = before ++ x :: after /\ f x = true /\ Forall (fun y => f y = false) before
  | None => Forall (fun y => f y = false) l
  end.
Proof.
  induction l as [| a l IH]; simpl; [constructor |].
  destruct (f a) eqn:Ha.
  - exists [], l. repeat split; [exact Ha | constructor].
  - destruct (find f l) as [x |].
    + destruct IH as (before & after & -> & Hx & Hb).
      exists (a :: before), after. repeat split; [exact Hx | constructor; assumption].
    + constructor; assumption.
Qed.
End ReplyProperties.

Section EndpointProperties.
Context `{Constants} {C : Type} `{zclGlobalCommunicator C}.

(** X4. The endpoint the read is sent to is the first endpoint of the
    device, in the order of its endpoint list, whose in-cluster list holds
    the Basic cluster; a device has no such endpoint exactly when none of
    its endpoints advertises it, and an endpoint without a description
    never does. *)
Theorem findBasicEndpoint_first (iNode : internalNode) (iDev : internalDevice) :
  match findBasicEndpoint iNode iDev with
  | Some endpoint => exists before after,
      endpoints iDev = before ++ endpoint :: after /\
      advertisesBasic iNode endpoint = true /\
      Forall (fun e => advertisesBasic iNode e = false) before
  | None => Forall (fun e => advertisesBasic iNode e = false) (endpoints iDev)
  end /\
  (forall endpoint, endpointDescriptions iNode !! endpoint = None ->
     advertisesBasic iNode endpoint = false).
Proof.
  split.
  - exact (find_first (advertisesBasic iNode) (endpoints iDev)).
  - intros endpoint Hnone. unfold advertisesBasic. rewrite Hnone. reflexivity.
Qed.

Lemma enumerateDevices_without_basic (st : callbackState) (iDevs : list internalDevice) :
  (forall iDev, In iDev iDevs -> findBasicEndpoint (csNode st) iDev = None) ->
  enumerateDevices st iDevs = Returned (st, iDevs).
Proof.
  induction iDevs as [| iDev rest IH]; intros Hnone; simpl; [reflexivity |].
  unfold enumerateDevice. rewrite (Hnone iDev (or_introl eq_refl)). simpl.
  rewrite IH by (intros d Hd; apply Hnone; right; exact Hd). reflexivity.
Qed.

(** X5. When no device of the node has an endpoint advertising the Basic
    cluster (also when the node has no devices), the callback issues no
    read and returns [nil] with the communicator, the log and the node,
    its transaction sequence included, as they were: no capability is
    attached. *)
Theorem NodeEnumerationCallback_without_basic (c : C) (log : list string)
    (iNode : internalNode) :
  (forall iDev, In iDev (devices iNode) -> findBasicEndpoint iNode iDev = None) ->
  NodeEnumerationCallback c log iNode =
  Returned ({| csCommunicator := c; csNode := iNode; csLog := log |}, None).
Proof.
  intros Hnone. unfold NodeEnumerationCallback.
  rewrite enumerateDevices_without_basic by exact Hnone.
  simpl. destruct iNode; reflexivity.
Qed.
End EndpointProperties.

(** ** What the enumeration callback keeps, and the reads it issues *)

Section CallbackKeeps.
Context `{Constants} {C : Type} `{zclGlobalCommunicator C}.

Lemma readProductInformation_node (foundEndpoint : zigbee.Endpoint)
    (st st' : attemptState) (err : option error) :
  readProductInformation foundEndpoint st = Returned (st', err) ->
  sameNodeData (asNode st) (asNode st').
Proof.
  unfold readProductInformation.
  destruct (snd (snd (ReadAttributes _ _))).
  - intros [= <- _]. unfold sameNodeData. simpl. auto.
  - destruct (applyRecords _ _); simpl; [| discriminate].
    intros [= <- _]. unfold sameNodeData. simpl. auto.
Qed.

Lemma Retry_node (foundEndpoint : zigbee.Endpoint) (retries : nat)
    (st st' : attemptState) (err0 err : option error) :
  Retry retries (readProductInformation foundEndpoint) st err0 = Returned (st', err) ->
  sameNodeData (asNode st) (asNode st').
Proof.
  revert st err0. induction retries as [| n IH]; intros st err0; simpl.
  - intros [= <- _]. apply sameNodeData_refl.
  - destruct (readProductInformation foundEndpoint st) as [[st1 e1] |] eqn:Hr;
      simpl; [| discriminate].
    pose proof (readProductInformation_node _ _ _ _ Hr) as Hs1.
    destruct e1 as [e |].
    + intros Hrest. eapply sameNodeData_trans; [exact Hs1 | exact (IH _ _ Hrest)].
    + intros [= <- _]. exact Hs1.
Qed.

Lemma addCapability_kept (d : da.Device) (c : da.Capability) :
  da.Gateway (addCapability d c) = da.Gateway d /\
  da.Identifier_ (addCapability d c) = da.Identifier_ d /\
  incl (da.Capabilities d) (da.Capabilities (addCapability d c)).
Proof.
  unfold addCapability. destruct (existsb _ _); simpl.
  - repeat split. apply incl_refl.
  - repeat split. apply incl_appl, incl_refl.
Qed.

Lemma enumerateDevice_keeps (st st' : callbackState) (iDev iDev' : internalDevice) :
  enumerateDevice st iDev = Returned (st', iDev') ->
  sameNodeData (csNode st) (csNode st') /\
  deviceKept iDev iDev' /\
  exists lines, csLog st' = csLog st ++ lines.
Proof.
  unfold enumerateDevice, deviceKept.
  destruct (findBasicEndpoint (csNode st) iDev) as [ep |].
  - destruct (Retry _ _ _ _) as [[st1 e1] |] eqn:Hr; simpl; [| discriminate].
    intros [= <- <-]. simpl.
    split; [exact (Retry_node _ _ _ _ _ _ Hr) |].
    destruct (addCapability_kept (device iDev) HasProductInformationFlag) as (Hg & Hi & Hc).
    split; [repeat split; assumption |].
    destruct e1; [eexists; reflexivity | exists []; rewrite app_nil_r; reflexivity].
  - intros [= <- <-]. split; [apply sameNodeData_refl |].
    split; [repeat split; apply incl_refl |].
    exists []. rewrite app_nil_r. reflexivity.
Qed.

Lemma enumerateDevices_keeps (iDevs : list internalDevice) (st st' : callbackState)
    (iDevs' : list internalDevice) :
  enumerateDevices st iDevs = Returned (st', iDevs') ->
  sameNodeData (csNode st) (csNode st') /\
  Forall2 deviceKept iDevs iDevs' /\
  exists lines, csLog st' = csLog st ++ lines.
Proof.
  revert st st' iDevs'. induction iDevs as [| iDev rest IH]; intros st st' iDevs'; simpl.
  - intros [= <- <-]. split; [apply sameNodeData_refl |].
    split; [constructor |]. exists []. rewrite app_nil_r. reflexivity.
  - destruct (enumerateDevice st iDev) as [[st1 iDev1] |] eqn:H1; simpl; [| discriminate].
    destruct (enumerateDevices st1 rest) as [[st2 rest2] |] eqn:H2; simpl; [| discriminate].
    intros [= <- <-].
    destruct (enumerateDevice_keeps _ _ _ _ H1) as (Hs1 & Hk1 & l1 & Hl1).
    destruct (IH _ _ _ H2) as (Hs2 & Hk2 & l2 & Hl2).
    split; [eapply sameNodeData_trans; eassumption |].
    split; [constructor; assumption |].
    exists (l1 ++ l2). rewrite Hl2, Hl1, app_assoc. reflexivity.
Qed.

(** X6. Whenever the callback returns, the node has the same address,
    endpoint descriptions and devices in the same order, and every device
    has kept its gateway, its identifier, its endpoints and every
    capability it had; the log has only grown, and the returned error is
    [nil].  The callback removes nothing. *)
Theorem NodeEnumerationCallback_keeps (c : C) (log : list string)
    (iNode : internalNode) (st : callbackState) (err : option error) :
  NodeEnumerationCallback c log iNode = Returned (st, err) ->
  err = None /\
  ieeeAddress (csNode st) = ieeeAddress iNode /\
  endpointDescriptions (csNode st) = endpointDescriptions iNode /\
  supportsAPSAck (csNode st) = supportsAPSAck iNode /\
  Forall2 deviceKept (devices iNode) (devices (csNode st)) /\
  exists lines, csLog st = log ++ lines.
Proof.
  unfold NodeEnumerationCallback.
  destruct (enumerateDevices _ _) as [[st1 devs] |] eqn:He; simpl; [| discriminate].
  intros [= <- <-]. simpl.
  destruct (enumerateDevices_keeps _ _ _ _ He) as ((Hi & _ & Hd & Ha & _) & Hk & Hl).
  simpl in *. repeat split; assumption.
Qed.
End CallbackKeeps.

Section CallbackRequests.
Context `{Constants} {C : Type} `{zclGlobalCommunicator C}.
#[local] Existing Instance recordingCommunicator.

Lemma requestTo_same (n n' : internalNode) (endpoint : zigbee.Endpoint) (req : ReadRequest) :
  sameNodeData n n' -> requestTo n' endpoint req -> requestTo n endpoint req.
Proof.
  unfold requestTo. intros (Hi & _ & _ & Ha & _) (H1 & H2 & H3 & H4 & H5 & H6 & H7).
  repeat split; congruence.
Qed.

Lemma readProductInformation_records (foundEndpoint : zigbee.Endpoint)
    (st st' : attemptState (C := C * list ReadRequest)) (err : option error) :
  readProductInformation foundEndpoint st = Returned (st', err) ->
  exists req,
    snd (asCommunicator st') = snd (asCommunicator st) ++ [req] /\
    requestTo (asNode st) foundEndpoint req.
Proof.
  unfold readProductInformation. simpl.
  destruct (snd (snd (ReadAttributes (fst (asCommunicator st)) _))).
  - intros [= <- _]. simpl. eexists. split; [reflexivity |].
    unfold requestTo. simpl. repeat split.
  - destruct (applyRecords _ _); simpl; [| discriminate].
    intros [= <- _]. simpl. eexists. split; [reflexivity |].
    unfold requestTo. simpl. repeat split.
Qed.

Lemma Retry_records (foundEndpoint : zigbee.Endpoint) (retries : nat)
    (st st' : attemptState (C := C * list ReadRequest)) (err0 err : option error) :
  Retry retries (readProductInformation foundEndpoint) st err0 = Returned (st', err) ->
  exists reqs,
    snd (asCommunicator st') = snd (asCommunicator st) ++ reqs /\
    (length reqs <= retries)%nat /\
    Forall (requestTo (asNode st) foundEndpoint) reqs.
Proof.
  revert st err0. induction retries as [| n IH]; intros st err0; simpl.
  - intros [= <- _]. exists []. rewrite app_nil_r.
    split; [reflexivity |]. split; [simpl; lia | constructor].
  - destruct (readProductInformation foundEndpoint st) as [[st1 e1] |] eqn:Hr;
      simpl; [| discriminate].
    destruct (readProductInformation_records _ _ _ _ Hr) as (req & Hreq & Hshape).
    pose proof (readProductInformation_node _ _ _ _ Hr) as Hs1.
    destruct e1 as [e |].
    + intros Hrest. destruct (IH _ _ Hrest) as (reqs & Hreqs & Hlen & Hall).
      exists (req :: reqs). split; [rewrite Hreqs, Hreq, <- app_assoc; reflexivity |].
      split; [simpl; lia |]. constructor; [exact Hshape |].
      eapply Forall_impl; [exact Hall |].
      intros r Hr'. eapply requestTo_same; eassumption.
    + intros [= <- _]. exists [req]. split; [exact Hreq |].
      split; [simpl; lia |]. constructor; [exact Hshape | constructor].
Qed.

Lemma productInformationRequest_same (n n' : internalNode) (iDevs : list internalDevice)
    (req : ReadRequest) :
  sameNodeData n n' ->
  productInformationRequest n' iDevs req -> productInformationRequest n iDevs req.
Proof.
  unfold productInformationRequest, advertisesBasic.
  intros (Hi & _ & Hd & Ha & _) (H1 & H2 & H3 & H4 & H5 & H6 & iDev & Hin & Hf).
  repeat split; try congruence. exists iDev. split; [exact Hin |].
  rewrite <- Hd. exact Hf.
Qed.

Lemma productInformationRequest_more (n : internalNode) (iDevs iDevs' : list internalDevice)
    (req : ReadRequest) :
  incl iDevs iDevs' ->
  productInformationRequest n iDevs req -> productInformationRequest n iDevs' req.
Proof.
  unfold productInformationRequest.
  intros Hincl (H1 & H2 & H3 & H4 & H5 & H6 & iDev & Hin & Hf).
  repeat split; try assumption. exists iDev. split; [apply Hincl, Hin | exact Hf].
Qed.

Lemma enumerateDevices_records (iDevs : list internalDevice)
    (st st' : callbackState (C := C * list ReadRequest)) (iDevs' : list internalDevice) :
  enumerateDevices st iDevs = Returned (st', iDevs') ->
  exists reqs,
    snd (csCommunicator st') = snd (csCommunicator st) ++ reqs /\
    (length reqs <= DefaultNetworkRetries * length (basicDevices (csNode st) iDevs))%nat /\
    Forall (productInformationRequest (csNode st) iDevs) reqs.
Proof.
  revert st st' iDevs'. induction iDevs as [| iDev rest IH]; intros st st' iDevs'; simpl.
  - intros [= <- <-]. exists []. rewrite app_nil_r.
    split; [reflexivity |]. split; [simpl; lia | constructor].
  - destruct (enumerateDevice st iDev) as [[st1 iDev1] |] eqn:H1; simpl; [| discriminate].
    destruct (enumerateDevices st1 rest) as [[st2 rest2] |] eqn:H2; simpl; [| discriminate].
    intros [= <- <-].
    destruct (enumerateDevice_keeps _ _ _ _ H1) as (Hs1 & _ & _).
    destruct (IH _ _ _ H2) as (reqs2 & Hreqs2 & Hlen2 & Hall2).
    assert (Hbasic : basicDevices (csNode st1) rest = basicDevices (csNode st) rest).
    { unfold basicDevices. apply filter_ext. intros d.
      rewrite (findBasicEndpoint_same (csNode st) (csNode st1) d Hs1). reflexivity. }
    rewrite Hbasic in Hlen2.
    assert (Hall2' : Forall (productInformationRequest (csNode st) (iDev :: rest)) reqs2).
    { eapply Forall_impl; [exact Hall2 |]. intros r Hr.
      eapply productInformationRequest_more; [apply incl_tl, incl_refl |].
      eapply productInformationRequest_same; eassumption. }
    revert H1. unfold enumerateDevice.
    destruct (findBasicEndpoint (csNode st) iDev) as [ep |] eqn:Hep.
    + destruct (Retry _ _ _ _) as [[sa e1] |] eqn:Hr; simpl; [| discriminate].
      intros [= <- _].
      destruct (Retry_records _ _ _ _ _ _ Hr) as (reqs1 & Hreqs1 & Hlen1 & Hall1).
      simpl in *. exists (reqs1 ++ reqs2).
      split; [rewrite Hreqs2, Hreqs1, <- app_assoc; reflexivity |].
      split; [rewrite length_app; lia |].
      apply Forall_app. split; [| exact Hall2'].
      eapply Forall_impl; [exact Hall1 |].
      intros r (R1 & R2 & R3 & R4 & R5 & R6 & R7).
      unfold productInformationRequest. repeat split; try assumption.
      exists iDev. split; [left; reflexivity |]. rewrite R7. exact Hep.
    + intros [= <- _]. simpl. exists reqs2.
      split; [exact Hreqs2 |]. split; [exact Hlen2 | exact Hall2'].
Qed.

(** X7. The reads the callback issues: run over any communicator whose
    requests are recorded, a callback that returns has added, for the
    devices of the node with a Basic endpoint, at most
    [DefaultNetworkRetries] requests each and none for the other devices;
    every request is a read of attributes 0x0004 and 0x0005 of the Basic
    cluster, from the gateway's endpoint 1 to the first Basic endpoint of a
    device of the node, addressed to the node, with the acknowledgement
    setting of the node and no manufacturer code. *)
Theorem NodeEnumerationCallback_requests (c : C) (recorded : list ReadRequest)
    (log : list string) (iNode : internalNode)
    (st : callbackState (C := C * list ReadRequest)) (err : option error) :
  NodeEnumerationCallback (c, recorded) log iNode = Returned (st, err) ->
  exists reqs,
    snd (csCommunicator st) = recorded ++ reqs /\
    (length reqs <=
       DefaultNetworkRetries * length (basicDevices iNode (devices iNode)))%nat /\
    Forall (productInformationRequest iNode (devices iNode)) reqs.
Proof.
  unfold NodeEnumerationCallback.
  destruct (enumerateDevices _ _) as [[st1 devs] |] eqn:He; simpl; [| discriminate].
  intros [= <- _]. simpl.
  exact (enumerateDevices_records _ _ _ _ He).
Qed.
End CallbackRequests.

(** ** Construction, start and the provider handler loop *)

Section Construction.
Context `{Constants}.

Lemma registeredCapabilities_lookup (Hd : flagsDistinct) :
  registeredCapabilities !! DeviceDiscoveryFlag = Some PtrZigbeeDeviceDiscovery /\
  registeredCapabilities !! EnumerateDeviceFlag = Some PtrZigbeeEnumerateDevice /\
  registeredCapabilities !! LocalDebugFlag = Some PtrZigbeeLocalDebug /\
  registeredCapabilities !! HasProductInformationFlag = Some PtrZigbeeHasProductInformation /\
  registeredCapabilities !! OnOffFlag = Some PtrZigbeeOnOff.
Proof.
  unfold flagsDistinct, initOrder in Hd.
  apply NoDup_cons in Hd as [H1 Hd]. apply NoDup_cons in Hd as [H2 Hd].
  apply NoDup_cons in Hd as [H3 Hd]. apply NoDup_cons in Hd as [H4 _].
  repeat match goal with
         | Hn : _ ∉ _ :: _ |- _ => apply not_elem_of_cons in Hn as [? ?]
         end.
  unfold registeredCapabilities.
  repeat split;
    repeat (first [ rewrite lookup_insert_eq; reflexivity
                  | rewrite lookup_insert_ne by congruence ]).
Qed.

(** X8. When the five capability flags are five different numbers,
    [Capability] after construction returns for each of them the
    implementation registered under it: device discovery, device
    enumeration, local debug, product information and on/off. *)
Theorem Capability_registered (Hd : flagsDistinct) (provider : Provider) :
  Capability DeviceDiscoveryFlag (New provider) = Some PtrZigbeeDeviceDiscovery /\
  Capability EnumerateDeviceFlag (New provider) = Some PtrZigbeeEnumerateDevice /\
  Capability LocalDebugFlag (New provider) = Some PtrZigbeeLocalDebug /\
  Capability HasProductInformationFlag (New provider) = Some PtrZigbeeHasProductInformation /\
  Capability OnOffFlag (New provider) = Some PtrZigbeeOnOff.
Proof. exact (registeredCapabilities_lookup Hd). Qed.

(** X9. Construction runs the [Init] of the capabilities in the order
    device discovery, device enumeration, local debug, product
    information, on/off: the product information capability's enumeration
    callback is added to the internal bus once, after whatever the first
    three add and before what on/off adds, and [enableAPSACK] is added
    last. *)
Theorem New_callbacks (Hd : flagsDistinct) (provider : Provider) :
  zgw.callbacks (New provider) =
    [CallbackInitOf PtrZigbeeDeviceDiscovery;
     CallbackInitOf PtrZigbeeEnumerateDevice;
     CallbackInitOf PtrZigbeeLocalDebug;
     CallbackNodeEnumerationProductInformation;
     CallbackInitOf PtrZigbeeOnOff;
     CallbackEnableAPSACK].
Proof.
  destruct (registeredCapabilities_lookup Hd) as (H1 & H2 & H3 & H4 & H5).
  simpl. rewrite H1, H2, H3, H4, H5. reflexivity.
Qed.

(** X10. [Start] returns the error of the adapter endpoint registration as
    it is and then starts nothing: the poller, the provider handler and the
    capabilities are as before, and only the Self device has changed.  When
    the registration succeeds it returns [nil], the poller and the provider
    handler run, and the loop over the capability map has visited exactly
    the registered implementations.  In both cases the store, the egress
    queue and the capability map are untouched. *)
Theorem Start_registration (z : zgw.t) :
  (forall err, RegisterAdapterEndpoint (zgw.provider z) = Some err ->
     snd (Start z) = Some err /\
     zgw.pollerRunning (fst (Start z)) = zgw.pollerRunning z /\
     zgw.providerHandlerRunning (fst (Start z)) = zgw.providerHandlerRunning z /\
     zgw.started (fst (Start z)) = zgw.started z) /\
  (RegisterAdapterEndpoint (zgw.provider z) = None ->
     snd (Start z) = None /\
     zgw.pollerRunning (fst (Start z)) = true /\
     zgw.providerHandlerRunning (fst (Start z)) = true /\
     (forall impl, In impl (zgw.started (fst (Start z))) <->
        exists flag, Capability flag z = Some impl)) /\
  zgw.nodes (fst (Start z)) = zgw.nodes z /\
  zgw.devices (fst (Start z)) = zgw.devices z /\
  zgw.events (fst (Start z)) = zgw.events z /\
  zgw.capabilities (fst (Start z)) = zgw.capabilities z.
Proof.
  unfold Start. split; [| split].
  - intros err ->. repeat split.
  - intros ->. simpl. repeat split.
    + intros Hin. apply in_map_iff in Hin as ([flag i] & Heq & Hin). simpl in Heq. subst i.
      exists flag. apply list_elem_of_In, elem_of_map_to_list in Hin. exact Hin.
    + intros [flag Hflag]. apply in_map_iff. exists (flag, impl). split; [reflexivity |].
      apply list_elem_of_In, elem_of_map_to_list. exact Hflag.
  - destruct (RegisterAdapterEndpoint (zgw.provider z)); repeat split.
Qed.
End Construction.

Section ProviderHandlerLoop.







End ProviderHandlerLoop.

(** ** The egress queue over many events *)

Section EgressQueue.

(** What a list of sends does to the queue and the output. *)
Lemma sendEvents_events (events : list Event) (z : zgw.t) :
  zgw.events (sendEvents events z) =
    zgw.events z ++ firstn (100 - length (zgw.events z)) events /\
  length (zgw.output (sendEvents events z)) =
    (length (zgw.output z) + (length events - (100 - length (zgw.events z))))%nat.
Proof.
  unfold sendEvents. revert z. induction events as [| event rest IH]; intros z; simpl.
  - rewrite firstn_nil, app_nil_r. split; [reflexivity | lia].
  - destruct (IH (sendEvent event z)) as [He Ho]. rewrite He, Ho. clear IH He Ho.
    unfold sendEvent, eventsCapacity.
    destruct (Nat.ltb_spec (length (zgw.events z)) 100) as [Hlt | Hge]; simpl.
    + rewrite length_app. simpl.
      replace (100 - length (zgw.events z))%nat
        with (S (100 - (length (zgw.events z) + 1)))%nat by lia.
      simpl. rewrite <- app_assoc. split; [reflexivity | lia].
    + replace (100 - length (zgw.events z))%nat with 0%nat by lia.
      simpl. rewrite length_app. simpl. split; [reflexivity | lia].
Qed.

(** X14. Sending a list of events keeps, behind the events already queued,
    the first of them that fit into the 100 places of the queue, in order,
    and drops every later one, printing one warning for each dropped
    event. *)
Theorem sendEvents_keeps_prefix (events : list Event) (z : zgw.t) :
  zgw.events (sendEvents events z) =
    zgw.events z ++ firstn (100 - length (zgw.events z)) events /\
  length (zgw.output (sendEvents events z)) =
    (length (zgw.output z) + (length events - (100 - length (zgw.events z))))%nat.
Proof.
  destruct (sendEvents_events events z) as [Hevents Houtput].
  split; [exact Hevents | exact Houtput].
Qed.

Lemma readEvents_firstn (n : nat) (z : zgw.t) :
  fst (readEvents n z) = firstn n (zgw.events z) /\
  zgw.events (snd (readEvents n z)) = skipn n (zgw.events z).
Proof.
  revert z. induction n as [| n IH]; intros z; simpl; [split; reflexivity |].
  unfold ReadEvent. destruct (zgw.events z) as [| event rest] eqn:Hq; simpl.
  - destruct (IH z) as [Hf Hs]. rewrite Hf, Hs, Hq.
    rewrite firstn_nil, skipn_nil. split; reflexivity.
  - destruct (IH (zgw.setEvents z rest)) as [Hf Hs]. rewrite Hf, Hs. split; reflexivity.
Qed.

(** X15. Events come out of the queue in the order they were sent: after
    sending a list of events to a new gateway, reading as many times
    returns the first 100 of them, in order, and leaves the queue empty;
    a read beyond the queued events returns nothing more. *)
Theorem sendEvents_readEvents `{Constants} (provider : Provider) (events : list Event) :
  fst (readEvents (length events) (sendEvents events (New provider))) = firstn 100 events /\
  zgw.events (snd (readEvents (length events) (sendEvents events (New provider)))) = [].
Proof.
  destruct (readEvents_firstn (length events) (sendEvents events (New provider)))
    as [-> ->].
  destruct (sendEvents_events events (New provider)) as [-> _]. simpl.
  split.
  - apply firstn_all2. rewrite length_firstn. lia.
  - apply skipn_all2. rewrite length_firstn. lia.
Qed.
End EgressQueue.

(** ** Join and leave on the store *)

Section JoinLeave.

Lemma Devices_In (z : zgw.t) (d : da.Device) :
  In d (Devices z) <->
  d = Self z \/
  exists ieee iNode iDev,
    getNode ieee z = Some iNode /\ In iDev (getDevices iNode) /\ d = device iDev.
Proof.
  unfold Devices. rewrite Devices_nodes. simpl. rewrite in_concat.
  split.
  - intros [Hs | (l & Hl & Hd)]; [left; symmetry; exact Hs | right].
    apply in_map_iff in Hl as (iNode & <- & Hn).
    apply in_map_iff in Hn as ([ieee n] & Hs & Hkv). simpl in Hs. subst n.
    apply in_map_iff in Hd as (iDev & <- & HiDev).
    exists ieee, iNode, iDev. split; [| split; [exact HiDev | reflexivity]].
    apply list_elem_of_In in Hkv. apply elem_of_map_to_list in Hkv. exact Hkv.
  - intros [-> | (ieee & iNode & iDev & Hn & HiDev & ->)]; [left; reflexivity | right].
    exists (map device (devices iNode)). split.
    + apply in_map_iff. exists iNode. split; [reflexivity |].
      apply in_map_iff. exists (ieee, iNode). split; [reflexivity |].
      apply list_elem_of_In. apply elem_of_map_to_list. exact Hn.
    + apply in_map. exact HiDev.
Qed.


Lemma handleNodeJoin_new_nodes (ieee : zigbee.IEEEAddress) (z : zgw.t) :
  getNode ieee z = None ->
  zgw.nodes (handleNodeJoin ieee z) =
    <[ieee := withDevices (snd (nextDeviceIdentifier (newNode ieee)))
                [newDevice (da.IEEEAddressWithSubIdentifier ieee 0)]]> (zgw.nodes z) /\
  zgw.devices (handleNodeJoin ieee z) =
    <[da.IEEEAddressWithSubIdentifier ieee 0 := ieee]> (zgw.devices z) /\
  zgw.self (handleNodeJoin ieee z) = zgw.self z.
Proof.
  intros Hn. unfold handleNodeJoin. rewrite Hn. simpl.
  rewrite alter_insert_eq, insert_insert_eq. simpl. repeat split.
Qed.

(** X16. After the join of a node the store did not know, [Devices] holds
    what it held before and one more device: the initial device of the
    node, with the gateway's back-reference, the identifier made of the
    node's address and sub-index 0, and no capabilities. *)
Theorem Devices_after_join (ieee : zigbee.IEEEAddress) (z : zgw.t) (d : da.Device) :
  getNode ieee z = None ->
  In d (Devices (dispatch (zigbee.NodeJoinEvent ieee) z)) <->
  In d (Devices z) \/
  d = {| da.Gateway := Some da.ZigbeeGatewayRef;
         da.Identifier_ := da.IEEEAddressWithSubIdentifier ieee 0;
         da.Capabilities := [] |}.
Proof.
  intros Hn. simpl.
  destruct (handleNodeJoin_new_nodes ieee z Hn) as (Hnodes & _ & Hself).
  rewrite !Devices_In. unfold Self, getNode. rewrite Hself, Hnodes. split.
  - intros [-> | (k & iNode & iDev & Hk & Hin & ->)]; [left; left; reflexivity |].
    destruct (decide (ieee = k)) as [<- | Hne].
    + rewrite lookup_insert_eq in Hk. injection Hk as <-. simpl in Hin.
      destruct Hin as [<- | []]. right. reflexivity.
    + rewrite lookup_insert_ne in Hk by exact Hne.
      left. right. exists k, iNode, iDev. repeat split; assumption.
  - intros [[-> | (k & iNode & iDev & Hk & Hin & ->)] | ->].
    + left. reflexivity.
    + right. exists k, iNode, iDev. split; [| split; [exact Hin | reflexivity]].
      rewrite lookup_insert_ne; [exact Hk |]. intros <-. unfold getNode in Hn. congruence.
    + right. exists ieee. eexists.
      exists (newDevice (da.IEEEAddressWithSubIdentifier ieee 0)).
      split; [apply lookup_insert_eq |]. split; [left; reflexivity | reflexivity].
Qed.

End JoinLeave.

(** ** Reading the product information of a device *)

Section ProductInformationReads.
Context `{Constants}.

(** X18. Asking for the product information of a device that lacks what
    the call needs is answered with an error and an empty record, whatever
    the store holds: the zero device, also one that lists the capability,
    does not belong to the gateway (that check comes first); the Self
    device after [Start] belongs to it and does not have the capability. *)
Theorem GetProductInformation_refused (z z0 : zgw.t) (capabilities : list da.Capability) :
  HasProductInformationFlag <> DeviceDiscoveryFlag ->
  GetProductInformation z
    {| da.Gateway := None; da.Identifier_ := da.NoIdentifier;
       da.Capabilities := capabilities |} =
    Returned (ProductInformation.zero, Some DeviceDoesNotBelongToGatewayError) /\
  GetProductInformation z (Self (fst (Start z0))) =
    Returned (ProductInformation.zero, Some DeviceDoesNotHaveCapability).
Proof.
  intros Hne. split; [reflexivity |].
  unfold GetProductInformation, Self, Start.
  destruct (RegisterAdapterEndpoint (zgw.provider z0)); simpl;
    unfold HasCapability; simpl;
    (destruct (Z.eqb_spec HasProductInformationFlag DeviceDiscoveryFlag);
     [contradiction | reflexivity]).
Qed.

(** X19. The call does not check that the device is still registered: for
    a device value that belongs to the gateway and lists the capability,
    once its node has left the store the call neither returns the
    information nor an error but panics on the nil device. *)
Theorem GetProductInformation_after_leave (ieee : zigbee.IEEEAddress) (z : zgw.t)
    (iNode : internalNode) (d : da.Device) :
  getNode ieee z = Some iNode ->
  In (da.Identifier_ d) (deviceIdentifiers iNode) ->
  DeviceDoesNotBelongToGateway d = false ->
  HasCapability d HasProductInformationFlag = true ->
  GetProductInformation (dispatch (zigbee.NodeLeaveEvent ieee) z) d = Panicked.
Proof.
  intros Hn Hin Hb Hc. unfold GetProductInformation. rewrite Hb, Hc. simpl.
  unfold handleNodeLeave. rewrite Hn.
  pose proof (removeDevices_unregisters (getDevices iNode)
                (Call (internalNodeLeave ieee) z) (da.Identifier_ d) Hin) as Hd.
  unfold getDevice. simpl. rewrite Hd. reflexivity.
Qed.

End ProductInformationReads.

(** ** How often the callback reads *)

Section CallbackReadCounts.
Context `{Constants} {C : Type} `{zclGlobalCommunicator C}.
#[local] Existing Instance recordingCommunicator.

Lemma readProductInformation_answered (Ha : alwaysAnswers)
    (Hrep : repliesCarryStrings (C := C)) (foundEndpoint : zigbee.Endpoint)
    (st : attemptState (C := C * list ReadRequest)) :
  exists st', readProductInformation foundEndpoint st = Returned (st', None).
Proof.
  destruct (readProductInformation foundEndpoint st) as [[st1 err] |] eqn:Hr.
  - exists st1. f_equal. f_equal. revert Hr.
    unfold readProductInformation. simpl.
    match goal with
    | |- context [ReadAttributes (fst (asCommunicator st)) ?r] =>
        rewrite (Ha (fst (asCommunicator st)) r)
    end.
    destruct (applyRecords _ _); simpl; [| discriminate].
    intros [= _ <-]. reflexivity.
  - exfalso. revert Hr. unfold readProductInformation. simpl.
    match goal with
    | |- context [ReadAttributes (fst (asCommunicator st)) ?r] =>
        pose proof (Ha (fst (asCommunicator st)) r) as Hnone;
        pose proof (Hrep (fst (asCommunicator st)) r Hnone) as Hstr
    end.
    rewrite Hnone.
    destruct (applyRecords_returns (asInformation st) _ Hstr) as [pi' ->].
    discriminate.
Qed.

Lemma Retry_answered (Ha : alwaysAnswers) (Hrep : repliesCarryStrings (C := C))
    (foundEndpoint : zigbee.Endpoint) (retries : nat)
    (st : attemptState (C := C * list ReadRequest)) :
  exists st' req,
    Retry (S retries) (readProductInformation foundEndpoint) st None = Returned (st', None) /\
    snd (asCommunicator st') = snd (asCommunicator st) ++ [req] /\
    sameNodeData (asNode st) (asNode st').
Proof.
  destruct (readProductInformation_answered Ha Hrep foundEndpoint st) as [st' Hr].
  destruct (readProductInformation_records _ _ _ _ Hr) as (req & Hreq & _).
  exists st', req. simpl. rewrite Hr. simpl.
  split; [reflexivity |]. split; [exact Hreq |].
  exact (readProductInformation_node _ _ _ _ Hr).
Qed.

Lemma readProductInformation_unanswered (Hf : alwaysFails (C := C))
    (foundEndpoint : zigbee.Endpoint) (st : attemptState (C := C * list ReadRequest)) :
  exists st' e, readProductInformation foundEndpoint st = Returned (st', Some e).
Proof.
  unfold readProductInformation. simpl.
  match goal with
  | |- context [ReadAttributes (fst (asCommunicator st)) ?r] =>
      pose proof (Hf (fst (asCommunicator st)) r) as Hne
  end.
  destruct (snd (snd (ReadAttributes (fst (asCommunicator st)) _))) as [e |];
    [| congruence].
  eexists _, e. reflexivity.
Qed.

Lemma Retry_unanswered (Hf : alwaysFails (C := C)) (foundEndpoint : zigbee.Endpoint)
    (retries : nat) (st : attemptState (C := C * list ReadRequest)) (err0 : option error) :
  exists st' err reqs,
    Retry retries (readProductInformation foundEndpoint) st err0 = Returned (st', err) /\
    snd (asCommunicator st') = snd (asCommunicator st) ++ reqs /\
    length reqs = retries /\
    sameNodeData (asNode st) (asNode st').
Proof.
  revert st err0. induction retries as [| n IH]; intros st err0.
  - exists st, err0, []. simpl. rewrite app_nil_r.
    split; [reflexivity |]. split; [reflexivity |].
    split; [reflexivity | apply sameNodeData_refl].
  - destruct (readProductInformation_unanswered Hf foundEndpoint st) as (st1 & e & Hr).
    destruct (readProductInformation_records _ _ _ _ Hr) as (req & Hreq & _).
    pose proof (readProductInformation_node _ _ _ _ Hr) as Hs1.
    destruct (IH st1 (Some e)) as (st' & err & reqs & Heq & Hreqs & Hlen & Hsame).
    exists st', err, (req :: reqs). simpl. rewrite Hr. simpl.
    split; [exact Heq |].
    split; [rewrite Hreqs, Hreq, <- app_assoc; reflexivity |].
    split; [rewrite Hlen; reflexivity |].
    eapply sameNodeData_trans; eassumption.
Qed.

Lemma basicDevices_same (n n' : internalNode) (iDevs : list internalDevice) :
  sameNodeData n n' -> basicDevices n' iDevs = basicDevices n iDevs.
Proof.
  intros Hs. unfold basicDevices. apply filter_ext. intros d.
  rewrite (findBasicEndpoint_same n n' d Hs). reflexivity.
Qed.

Lemma enumerateDevices_count (perDevice : nat)
    (Hretry : forall ep (st : attemptState (C := C * list ReadRequest)),
        exists st' err reqs,
          Retry DefaultNetworkRetries (readProductInformation ep) st None
            = Returned (st', err) /\
          snd (asCommunicator st') = snd (asCommunicator st) ++ reqs /\
          length reqs = perDevice /\
          sameNodeData (asNode st) (asNode st'))
    (iDevs : list internalDevice) (st : callbackState (C := C * list ReadRequest)) :
  exists st' iDevs' reqs,
    enumerateDevices st iDevs = Returned (st', iDevs') /\
    snd (csCommunicator st') = snd (csCommunicator st) ++ reqs /\
    length reqs = (perDevice * length (basicDevices (csNode st) iDevs))%nat /\
    sameNodeData (csNode st) (csNode st').
Proof.
  revert st. induction iDevs as [| iDev rest IH]; intros st; simpl.
  - exists st, [], []. rewrite app_nil_r.
    split; [reflexivity |]. split; [reflexivity |].
    split; [simpl; lia | apply sameNodeData_refl].
  - unfold enumerateDevice.
    destruct (findBasicEndpoint (csNode st) iDev) as [ep |] eqn:Hep; simpl.
    + destruct (Hretry ep {| asCommunicator := csCommunicator st; asNode := csNode st;
                             asInformation := productInformation iDev |})
        as (sa & err & reqs1 & -> & Hreqs1 & Hlen1 & Hs1).
      simpl in *.
      match goal with
      | |- context [enumerateDevices ?s rest] =>
          destruct (IH s) as (st2 & rest' & reqs2 & -> & Hreqs2 & Hlen2 & Hs2)
      end.
      simpl in *. rewrite (basicDevices_same _ _ rest Hs1) in Hlen2.
      eexists _, _, (reqs1 ++ reqs2). split; [reflexivity |]. simpl.
      split; [rewrite Hreqs2, Hreqs1, <- app_assoc; reflexivity |].
      split; [rewrite length_app; lia |].
      eapply sameNodeData_trans; eassumption.
    + destruct (IH st) as (st2 & rest' & reqs2 & -> & Hreqs2 & Hlen2 & Hs2).
      simpl. eexists _, _, reqs2. split; [reflexivity |].
      split; [exact Hreqs2 |]. split; [exact Hlen2 | exact Hs2].
Qed.

(** X20. A read that is answered is not repeated, and a read that is never
    answered is tried [DefaultNetworkRetries] times and then given up: over
    a communicator that answers every read (with strings for the stored
    attributes) the callback issues exactly one request for each device
    with a Basic endpoint; over one that answers none it issues exactly
    [DefaultNetworkRetries] requests for each of them.  Either way it
    returns [nil]. *)
Theorem NodeEnumerationCallback_read_counts (c : C) (recorded : list ReadRequest)
    (log : list string) (iNode : internalNode) :
  (alwaysAnswers (C := C) -> repliesCarryStrings (C := C) ->
   (0 < DefaultNetworkRetries)%nat ->
   exists st reqs,
     NodeEnumerationCallback (c, recorded) log iNode = Returned (st, None) /\
     snd (csCommunicator st) = recorded ++ reqs /\
     length reqs = length (basicDevices iNode (devices iNode))) /\
  (alwaysFails (C := C) ->
   exists st reqs,
     NodeEnumerationCallback (c, recorded) log iNode = Returned (st, None) /\
     snd (csCommunicator st) = recorded ++ reqs /\
     length reqs =
       (DefaultNetworkRetries * length (basicDevices iNode (devices iNode)))%nat).
Proof.
  split.
  - intros Ha Hrep Hpos. unfold NodeEnumerationCallback.
    destruct DefaultNetworkRetries as [| n] eqn:Hn; [lia |].
    destruct (enumerateDevices_count 1) with
      (iDevs := devices iNode)
      (st := {| csCommunicator := (c, recorded); csNode := iNode; csLog := log |})
      as (st1 & devs & reqs & -> & Hreqs & Hlen & _).
    { intros ep sa. rewrite Hn.
      destruct (Retry_answered Ha Hrep ep n sa) as (sa' & req & Heq & Hr & Hs).
      exists sa', None, [req]. split; [exact Heq |]. split; [exact Hr |].
      split; [reflexivity | exact Hs]. }
    simpl in *. eexists _, reqs. split; [reflexivity |]. simpl.
    split; [exact Hreqs | lia].
  - intros Hf. unfold NodeEnumerationCallback.
    destruct (enumerateDevices_count DefaultNetworkRetries) with
      (iDevs := devices iNode)
      (st := {| csCommunicator := (c, recorded); csNode := iNode; csLog := log |})
      as (st1 & devs & reqs & -> & Hreqs & Hlen & _).
    { intros ep sa. exact (Retry_unanswered Hf ep DefaultNetworkRetries sa None). }
    simpl in *. eexists _, reqs. split; [reflexivity |]. simpl.
    split; [exact Hreqs | exact Hlen].
Qed.
End CallbackReadCounts.

(** ** The properties at concrete inputs *)

#[local] Existing Instance exampleConstants.
#[local] Existing Instance countingCommunicator.
#[local] Existing Instance scriptedCommunicator.


Lemma countingCommunicator_carries_strings : repliesCarryStrings (C := nat).
Proof.
  intros c req. simpl. destruct (c <? 2)%nat; simpl; [discriminate | reflexivity].
Defined.


(** With a record that reports success and carries no string, the type
    assertion panics and the callback does not return. *)
Lemma NodeEnumerationCallback_panics :
  ~ exists st,
      NodeEnumerationCallback [([mistypedRecord 0x0004 7], None)] [] exampleNode
      = Returned (st, None).
Proof.
  intros [st Heq]. vm_compute in Heq. discriminate Heq.
Qed.

Lemma NodeEnumerationCallback_returns_nil_witness :
  exists st, NodeEnumerationCallback 0%nat [] exampleNode = Returned (st, None).
Proof.
  exact (proj1 (proj2 NodeEnumerationCallback_returns_nil)
           countingCommunicator_carries_strings 0%nat [] exampleNode).
Defined.

Lemma Capability_unregistered_witness :
  Capability 99 (New exampleProvider) = None /\
  Capability 99 (fst (Start (New exampleProvider))) = None.
Proof.
  apply (Capability_unregistered exampleProvider 99); simpl; lia.
Defined.


Lemma NodeJoinEvent_idempotent_witness :
  dispatch (zigbee.NodeJoinEvent 0xAABB)
    (dispatch (zigbee.NodeJoinEvent 0xAABB) (New exampleProvider)) =
  dispatch (zigbee.NodeJoinEvent 0xAABB) (New exampleProvider) /\
  zgw.trace (dispatch (zigbee.NodeJoinEvent 0xAABB) (New exampleProvider)) =
    [AddedNode 0xAABB; AddedDevice (da.IEEEAddressWithSubIdentifier 0xAABB 0);
     Called (internalNodeJoin 0xAABB)].
Proof.
  split.
  - exact (proj2 (proj2 (proj2 (NodeJoinEvent_idempotent 0xAABB (New exampleProvider))))).
  - exact (proj2 (proj2 (proj1 (proj2 (proj2
             (NodeJoinEvent_idempotent 0xAABB (New exampleProvider)))) eq_refl))).
Defined.

Lemma NodeLeaveEvent_order_witness :
  zgw.trace (dispatch (zigbee.NodeLeaveEvent 0xAABB)
               (dispatch (zigbee.NodeJoinEvent 0xAABB) (New exampleProvider))) =
    [AddedNode 0xAABB; AddedDevice (da.IEEEAddressWithSubIdentifier 0xAABB 0);
     Called (internalNodeJoin 0xAABB); Called (internalNodeLeave 0xAABB);
     RemovedDevice (da.IEEEAddressWithSubIdentifier 0xAABB 0); RemovedNode 0xAABB] /\
  dispatch (zigbee.NodeLeaveEvent 0xAABB) (New exampleProvider) = New exampleProvider.
Proof.
  split.
  - exact (proj1 (proj1 (NodeLeaveEvent_order 0xAABB
                           (dispatch (zigbee.NodeJoinEvent 0xAABB) (New exampleProvider)))
                    (withDevices (snd (nextDeviceIdentifier (newNode 0xAABB)))
                       [newDevice (da.IEEEAddressWithSubIdentifier 0xAABB 0)])
                    eq_refl)).
  - exact (proj2 (NodeLeaveEvent_order 0xAABB (New exampleProvider)) eq_refl).
Defined.


(** ** Scenarios *)

(** Product information read in full: endpoint 1 advertises Basic, both
    attributes are answered. *)
Example scenario_product_information :
  exists st,
    NodeEnumerationCallback
      [([stringRecord 0x0004 "Acme"; stringRecord 0x0005 "Bulb1"], None)] [] exampleNode
    = Returned (st, None) /\
    map productInformation (devices (csNode st)) =
      [ {| ProductInformation.Manufacturer := "Acme";
           ProductInformation.Name := "Bulb1";
           ProductInformation.Present := Z.lor Manufacturer Name |} ] /\
    map (fun iDev => da.Capabilities (device iDev)) (devices (csNode st)) =
      [[HasProductInformationFlag]].
Proof.
  eexists. split; [vm_compute; reflexivity |]. split; reflexivity.
Qed.

(** The model name fails with a non-zero status. *)
Example scenario_partial_failure :
  exists st,
    NodeEnumerationCallback
      [([stringRecord 0x0004 "Acme"; failedRecord 0x0005 0x86], None)] [] exampleNode
    = Returned (st, None) /\
    map productInformation (devices (csNode st)) =
      [ {| ProductInformation.Manufacturer := "Acme";
           ProductInformation.Name := "";
           ProductInformation.Present := Manufacturer |} ] /\
    map (fun iDev => da.Capabilities (device iDev)) (devices (csNode st)) =
      [[HasProductInformationFlag]].
Proof.
  eexists. split; [vm_compute; reflexivity |]. split; reflexivity.
Qed.

(** No attempt is answered: five reads, one line in the log, the capability
    attached. *)
Example scenario_read_fails :
  exists st,
    NodeEnumerationCallback (C := list _) [] [] exampleNode = Returned (st, None) /\
    csLog st = ["failed to read product information: no response"%string] /\
    transactionSequence (csNode st) = 5 /\
    map productInformation (devices (csNode st)) = [ProductInformation.zero] /\
    map (fun iDev => da.Capabilities (device iDev)) (devices (csNode st)) =
      [[HasProductInformationFlag]].
Proof.
  eexists. split; [vm_compute; reflexivity |]. repeat split; reflexivity.
Qed.

(** A node joins, is announced again, and leaves. *)
Example scenario_join_leave :
  Devices (dispatch (zigbee.NodeJoinEvent 0xAABB)
             (dispatch (zigbee.NodeJoinEvent 0xAABB) (fst (Start (New exampleProvider))))) =
    [ {| da.Gateway := Some da.ZigbeeGatewayRef;
         da.Identifier_ := da.IEEEAddress 0x00124b0001020304;
         da.Capabilities := [DeviceDiscoveryFlag] |};
      {| da.Gateway := Some da.ZigbeeGatewayRef;
         da.Identifier_ := da.IEEEAddressWithSubIdentifier 0xAABB 0;
         da.Capabilities := [] |} ] /\
  Devices (dispatch (zigbee.NodeLeaveEvent 0xAABB)
             (dispatch (zigbee.NodeJoinEvent 0xAABB) (fst (Start (New exampleProvider))))) =
    [ {| da.Gateway := Some da.ZigbeeGatewayRef;
         da.Identifier_ := da.IEEEAddress 0x00124b0001020304;
         da.Capabilities := [DeviceDiscoveryFlag] |} ].
Proof. split; vm_compute; reflexivity. Qed.

(** The two tests of the discovery capability that make the provider fail:
    the error is forwarded and the status is what it was. *)
Example scenario_allow_forwards_error :
  let z := fst (Start (New exampleProvider)) in
  let zdd := {| ZigbeeDeviceDiscovery.discovering := false;
                ZigbeeDeviceDiscovery.expiry := None |} in
  let r := ZigbeeDeviceDiscovery.Allow 0 500 (Self z) (Some "permit join failure"%string) zdd z in
  snd r = Some "permit join failure"%string /\
  ZigbeeDeviceDiscovery.Discovering
    (fst (ZigbeeDeviceDiscovery.Status_ 0 (Self z) (fst (fst r)) (snd (fst r)))) = false.
Proof. split; vm_compute; reflexivity. Qed.

Example scenario_deny_forwards_error :
  let z := fst (Start (New exampleProvider)) in
  let zdd := {| ZigbeeDeviceDiscovery.discovering := true;
                ZigbeeDeviceDiscovery.expiry := None |} in
  let r := ZigbeeDeviceDiscovery.Deny (Self z) (Some "deny join failure"%string) zdd z in
  snd r = Some "deny join failure"%string /\
  ZigbeeDeviceDiscovery.Discovering
    (fst (ZigbeeDeviceDiscovery.Status_ 0 (Self z) (fst (fst r)) (snd (fst r)))) = true.
Proof. split; vm_compute; reflexivity. Qed.

(** ** Further properties at concrete inputs *)

Lemma applyRecords_last_record_decides_witness :
  exists pi',
    applyRecords ProductInformation.zero
      [stringRecord 0x0004 "Old"; failedRecord 0x0005 0x86; stringRecord 0x0004 "Acme"]
    = Returned pi' /\
    fieldStored 0x0004 "Acme" pi' /\ fieldCleared 0x0005 pi'.
Proof.
  assert (Hfit : presentMasksFit) by (split; [constructor; simpl; lia | reflexivity]).
  eexists. split; [vm_compute; reflexivity |]. split.
  - refine (proj1 (applyRecords_last_record_decides Hfit 0x0004
                     [stringRecord 0x0004 "Old"; failedRecord 0x0005 0x86;
                      stringRecord 0x0004 "Acme"]
                     (stringRecord 0x0004 "Acme") ProductInformation.zero _
                     (or_introl eq_refl) _ eq_refl) "Acme"%string eq_refl eq_refl).
    vm_compute. reflexivity.
  - refine (proj2 (applyRecords_last_record_decides Hfit 0x0005
                     [stringRecord 0x0004 "Old"; failedRecord 0x0005 0x86;
                      stringRecord 0x0004 "Acme"]
                     (failedRecord 0x0005 0x86) ProductInformation.zero _
                     (or_intror eq_refl) _ eq_refl) _).
    + vm_compute. reflexivity.
    + simpl. lia.
Defined.

Lemma applyRecords_absent_attribute_kept_witness :
  exists pi',
    applyRecords
      {| ProductInformation.Manufacturer := "Acme"; ProductInformation.Name := "";
         ProductInformation.Present := 1 |}
      [stringRecord 0x0005 "Bulb1"] = Returned pi' /\
    ProductInformation.Manufacturer pi' = "Acme"%string /\
    Z.land (ProductInformation.Present pi') Manufacturer = 1.
Proof.
  assert (Hfit : presentMasksFit) by (split; [constructor; simpl; lia | reflexivity]).
  eexists. split; [vm_compute; reflexivity |].
  refine (proj1 (applyRecords_absent_attribute_kept Hfit [stringRecord 0x0005 "Bulb1"]
                   {| ProductInformation.Manufacturer := "Acme";
                      ProductInformation.Name := "";
                      ProductInformation.Present := 1 |} _ _) eq_refl).
  vm_compute. reflexivity.
Defined.

Lemma NodeEnumerationCallback_without_basic_witness :
  NodeEnumerationCallback 0%nat [] exampleSwitchNode =
  Returned ({| csCommunicator := 0%nat; csNode := exampleSwitchNode; csLog := [] |}, None).
Proof.
  apply NodeEnumerationCallback_without_basic.
  intros iDev [<- | []]. reflexivity.
Defined.

Lemma NodeEnumerationCallback_keeps_witness :
  exists st,
    NodeEnumerationCallback 0%nat [] exampleNode = Returned (st, None) /\
    Forall2 deviceKept (devices exampleNode) (devices (csNode st)).
Proof.
  eexists. split; [vm_compute; reflexivity |].
  refine (proj1 (proj2 (proj2 (proj2 (proj2
            (NodeEnumerationCallback_keeps 0%nat [] exampleNode _ None _)))))).
  vm_compute. reflexivity.
Defined.

Lemma NodeEnumerationCallback_requests_witness :
  exists st,
    @NodeEnumerationCallback exampleConstants (nat * list ReadRequest)
      (@recordingCommunicator nat countingCommunicator) (0%nat, []) [] exampleNode
    = Returned (st, None) /\
    exists reqs,
      snd (csCommunicator st) = [] ++ reqs /\
      (length reqs <= DefaultNetworkRetries * length (basicDevices exampleNode (devices exampleNode)))%nat /\
      Forall (productInformationRequest exampleNode (devices exampleNode)) reqs.
Proof.
  eexists. split; [vm_compute; reflexivity |].
  refine (@NodeEnumerationCallback_requests exampleConstants nat countingCommunicator
            0%nat [] [] exampleNode _ None _).
  vm_compute. reflexivity.
Defined.

Lemma exampleConstants_distinct : flagsDistinct.
Proof.
  unfold flagsDistinct, initOrder. simpl.
  repeat (apply NoDup_cons_2;
          [rewrite ?not_elem_of_cons; repeat split; try lia; apply not_elem_of_nil |]).
  apply NoDup_nil_2.
Defined.

Lemma Capability_registered_witness :
  Capability 0 (New exampleProvider) = Some PtrZigbeeDeviceDiscovery /\
  Capability 1 (New exampleProvider) = Some PtrZigbeeEnumerateDevice /\
  Capability 2 (New exampleProvider) = Some PtrZigbeeLocalDebug /\
  Capability 3 (New exampleProvider) = Some PtrZigbeeHasProductInformation /\
  Capability 4 (New exampleProvider) = Some PtrZigbeeOnOff.
Proof. exact (Capability_registered exampleConstants_distinct exampleProvider). Defined.

Lemma New_callbacks_witness :
  zgw.callbacks (New exampleProvider) =
    [CallbackInitOf PtrZigbeeDeviceDiscovery;
     CallbackInitOf PtrZigbeeEnumerateDevice;
     CallbackInitOf PtrZigbeeLocalDebug;
     CallbackNodeEnumerationProductInformation;
     CallbackInitOf PtrZigbeeOnOff;
     CallbackEnableAPSACK].
Proof. exact (New_callbacks exampleConstants_distinct exampleProvider). Defined.




Lemma Devices_after_join_witness :
  In {| da.Gateway := Some da.ZigbeeGatewayRef;
        da.Identifier_ := da.IEEEAddressWithSubIdentifier 0xAABB 0;
        da.Capabilities := [] |}
     (Devices (dispatch (zigbee.NodeJoinEvent 0xAABB) (New exampleProvider))).
Proof.
  apply (Devices_after_join 0xAABB (New exampleProvider)); [reflexivity |].
  right. reflexivity.
Defined.


Lemma GetProductInformation_refused_witness :
  GetProductInformation (New exampleProvider) (Self (fst (Start (New exampleProvider)))) =
  Returned (ProductInformation.zero, Some DeviceDoesNotHaveCapability).
Proof.
  refine (proj2 (GetProductInformation_refused (New exampleProvider)
                   (New exampleProvider) [] _)).
  simpl. lia.
Defined.

Lemma GetProductInformation_after_leave_witness :
  GetProductInformation
    (dispatch (zigbee.NodeLeaveEvent 0xAABB)
       (dispatch (zigbee.NodeJoinEvent 0xAABB) (New exampleProvider)))
    {| da.Gateway := Some da.ZigbeeGatewayRef;
       da.Identifier_ := da.IEEEAddressWithSubIdentifier 0xAABB 0;
       da.Capabilities := [HasProductInformationFlag] |} = Panicked.
Proof.
  refine (GetProductInformation_after_leave 0xAABB
            (dispatch (zigbee.NodeJoinEvent 0xAABB) (New exampleProvider))
            (withDevices (snd (nextDeviceIdentifier (newNode 0xAABB)))
               [newDevice (da.IEEEAddressWithSubIdentifier 0xAABB 0)])
            {| da.Gateway := Some da.ZigbeeGatewayRef;
               da.Identifier_ := da.IEEEAddressWithSubIdentifier 0xAABB 0;
               da.Capabilities := [HasProductInformationFlag] |}
            eq_refl _ eq_refl eq_refl).
  simpl. left. reflexivity.
Defined.

Lemma NodeEnumerationCallback_read_counts_witness :
  (exists st reqs,
     @NodeEnumerationCallback exampleConstants (unit * list ReadRequest)
       (@recordingCommunicator unit answeringCommunicator) (tt, []) [] exampleNode
     = Returned (st, None) /\
     snd (csCommunicator st) = [] ++ reqs /\ length reqs = 1%nat) /\
  (exists st reqs,
     @NodeEnumerationCallback exampleConstants (unit * list ReadRequest)
       (@recordingCommunicator unit silentCommunicator) (tt, []) [] exampleNode
     = Returned (st, None) /\
     snd (csCommunicator st) = [] ++ reqs /\ length reqs = 5%nat).
Proof.
  split.
  - refine (proj1 (@NodeEnumerationCallback_read_counts exampleConstants unit
                     answeringCommunicator tt [] [] exampleNode) _ _ _).
    + intros c req. reflexivity.
    + intros c req _. reflexivity.
    + simpl. lia.
  - refine (proj2 (@NodeEnumerationCallback_read_counts exampleConstants unit
                     silentCommunicator tt [] [] exampleNode) _).
    intros c req. discriminate.
Defined.

Lemma Start_registration_witness :
  snd (Start (New {| AdapterNodeIEEEAddress := 1;
                     RegisterAdapterEndpoint := Some "endpoint in use"%string |})) =
    Some "endpoint in use"%string /\
  zgw.providerHandlerRunning
    (fst (Start (New {| AdapterNodeIEEEAddress := 1;
                        RegisterAdapterEndpoint := Some "endpoint in use"%string |}))) = false /\
  zgw.providerHandlerRunning (fst (Start (New exampleProvider))) = true.
Proof.
  split; [| split].
  - exact (proj1 (proj1 (Start_registration
             (New {| AdapterNodeIEEEAddress := 1;
                     RegisterAdapterEndpoint := Some "endpoint in use"%string |}))
             "endpoint in use"%string eq_refl)).
  - exact (proj1 (proj2 (proj2 (proj1 (Start_registration
             (New {| AdapterNodeIEEEAddress := 1;
                     RegisterAdapterEndpoint := Some "endpoint in use"%string |}))
             "endpoint in use"%string eq_refl)))).
  - exact (proj1 (proj2 (proj2 (proj1 (proj2 (Start_registration (New exampleProvider)))
             eq_refl)))).
Defined.
